(** * Crypto tracker: the periodic refresh pipeline

    A shallow embedding of [crypto_service.py] (fetch and analysis),
    [google_sheets_service.py] (the spreadsheet mirror) and the scheduler
    loop [background_update] of [app.py], followed by the properties of
    the pipeline.

    Numbers are IEEE 754 binary64 values, as the [float(...)] conversions of
    the analysis make them; JSON integers are taken at their float value
    (exact below 2^53).  The clock, the HTTP exchange and the outcome of
    the socket and spreadsheet calls are inputs of the model. *)

From Stdlib Require Import List String ZArith Lia Bool PrimFloat.
Import ListNotations.
Open Scope string_scope.
Open Scope list_scope.

(** ** Python values *)

(** A cell of a market record, as [response.json()] decodes it. *)
Inductive value : Type :=
| VNum (x : float)
| VStr (s : string)
| VNull.

(** A market record is a JSON object; a batch is the list the provider
    returned, in rank order. *)
Definition record : Type := list (string * value).
Definition batch : Type := list record.

(** The exception classes the pipeline meets. *)
Inductive exn : Type :=
| RequestException
| HTTPError
| JSONDecodeError
| TypeError
| ValueError
| KeyError (key : string)
| OtherException (name : string).

(** [HTTPError] and the decoding error of [requests] derive from
    [RequestException]. *)
Definition is_RequestException (e : exn) : bool :=
  match e with
  | RequestException | HTTPError | JSONDecodeError => true
  | _ => false
  end.

(** The result of a call: a value, or an exception leaving it. *)
Inductive exc (A : Type) : Type :=
| Ok (a : A)
| Raise (e : exn).
Arguments Ok {A} a.
Arguments Raise {A} e.

Definition exc_bind {A B : Type} (m : exc A) (f : A -> exc B) : exc B :=
  match m with
  | Ok a => f a
  | Raise e => Raise e
  end.

Declare Scope exc_scope.
Delimit Scope exc_scope with exc.
Notation "x <- m ;; k" := (exc_bind m (fun x => k))
  (at level 61, m at next level, right associativity) : exc_scope.

(** The dictionaries the analysis returns.  [PStrExn e] is [str(e)]. *)
Inductive pyval : Type :=
| PStr (s : string)
| PFloat (x : float)
| PStrExn (e : exn)
| PDict (d : list (string * float)).

Definition pydict : Type := list (string * pyval).

(** [d.get(k)] on an association list. *)
Fixpoint lookup {V : Type} (k : string) (d : list (string * V)) : option V :=
  match d with
  | [] => None
  | (k', v) :: rest => if String.eqb k k' then Some v else lookup k rest
  end.

(** [del d[k]]: the dictionary without the key. *)
Fixpoint remove_key {V : Type} (k : string) (d : list (string * V))
  : list (string * V) :=
  match d with
  | [] => []
  | (k', v) :: rest =>
      if String.eqb k k' then remove_key k rest else (k', v) :: remove_key k rest
  end.

(** ** The part of pandas the services use

    Frames, column assignment and the reductions follow the library's
    documented behaviour (pandas 2): reductions skip missing values,
    refuse strings, and [std] has [ddof=1].  Sums run left to right. *)

(** A frame: the number of rows and the columns in order, each with one
    cell per row. *)
Record DataFrame : Type := mkDataFrame {
  nrows : nat;
  columns : list (string * list value)
}.

Definition mem_string (k : string) (l : list string) : bool :=
  existsb (String.eqb k) l.

(** Column labels of a list of dicts: the keys in order of first
    appearance. *)
Fixpoint add_keys (seen : list string) (ks : list string) : list string :=
  match ks with
  | [] => seen
  | k :: rest =>
      if mem_string k seen then add_keys seen rest
      else add_keys (seen ++ [k]) rest
  end.

Definition column_labels (data : batch) : list string :=
  fold_left (fun seen r => add_keys seen (map fst r)) data [].

(** A key absent from a record gives a NaN cell. *)
Definition cell (k : string) (r : record) : value :=
  match lookup k r with
  | Some v => v
  | None => VNull
  end.

(** [pd.DataFrame(data)] for a list of dicts: one row per record, one
    column per label.  On such a list the constructor does not raise. *)
Definition frame_of_records (data : batch) : DataFrame :=
  {| nrows := List.length data;
     columns := map (fun k => (k, map (cell k) data)) (column_labels data) |}.

Definition pd_DataFrame (data : batch) : exc DataFrame :=
  Ok (frame_of_records data).

(** [col in df.columns] *)
Definition has_column (df : DataFrame) (col : string) : bool :=
  mem_string col (map fst (columns df)).

Fixpoint replace_column (col : string) (s : list value)
  (cols : list (string * list value)) : list (string * list value) :=
  match cols with
  | [] => []
  | (k, c) :: rest =>
      if String.eqb col k then (k, s) :: rest
      else (k, c) :: replace_column col s rest
  end.

(** [df[col] = v] with a scalar [v]: every row gets [v]; a new label is
    appended. *)
Definition setitem (df : DataFrame) (col : string) (v : value) : DataFrame :=
  let s := repeat v (nrows df) in
  {| nrows := nrows df;
     columns := if has_column df col then replace_column col s (columns df)
                else columns df ++ [(col, s)] |}.

(** [df[col]] *)
Definition getitem (df : DataFrame) (col : string) : exc (list value) :=
  match lookup col (columns df) with
  | Some s => Ok s
  | None => Raise (KeyError col)
  end.

(** The numbers a reduction works on: missing cells and NaN are skipped
    ([skipna=True]); a string in the column makes the reduction raise
    [TypeError]. *)
Fixpoint numeric_values (s : list value) : exc (list float) :=
  match s with
  | [] => Ok []
  | VNum x :: rest =>
      (xs <- numeric_values rest ;;
       Ok (if is_nan x then xs else x :: xs))%exc
  | VNull :: rest => numeric_values rest
  | VStr _ :: rest => Raise TypeError
  end.

Fixpoint float_of_nat (n : nat) : float :=
  match n with
  | O => 0%float
  | S k => (float_of_nat k + 1)%float
  end.

Definition fsum (xs : list float) : float :=
  fold_left PrimFloat.add xs 0%float.

Fixpoint insert_sorted (x : float) (l : list float) : list float :=
  match l with
  | [] => [x]
  | y :: rest => if PrimFloat.leb x y then x :: l else y :: insert_sorted x rest
  end.

Definition sort_floats (xs : list float) : list float :=
  fold_right insert_sorted [] xs.

Definition fmin (a b : float) : float := if PrimFloat.ltb b a then b else a.
Definition fmax (a b : float) : float := if PrimFloat.ltb a b then b else a.

(** [Series.sum()]: 0 when nothing is left. *)
Definition Series_sum (s : list value) : exc float :=
  (xs <- numeric_values s ;; Ok (fsum xs))%exc.

(** [Series.mean()]: NaN when nothing is left. *)
Definition mean_of (xs : list float) : float :=
  match xs with
  | [] => nan
  | _ => (fsum xs / float_of_nat (List.length xs))%float
  end.

Definition Series_mean (s : list value) : exc float :=
  (xs <- numeric_values s ;; Ok (mean_of xs))%exc.

(** [Series.median()]: the middle of the sorted values, the mean of the
    two middle ones for an even count. *)
Definition median_of (xs : list float) : float :=
  let sorted := sort_floats xs in
  let n := List.length sorted in
  match n with
  | O => nan
  | _ =>
      if Nat.odd n then nth (n / 2) sorted nan
      else ((nth (n / 2 - 1) sorted nan + nth (n / 2) sorted nan) / 2)%float
  end.

Definition Series_median (s : list value) : exc float :=
  (xs <- numeric_values s ;; Ok (median_of xs))%exc.

(** [Series.std()], [ddof=1]: NaN when the count does not exceed [ddof];
    otherwise the root of the squared deviations from the mean over
    [count - ddof]. *)
Definition sq_deviations (xs : list float) : list float :=
  let avg := (fsum xs / float_of_nat (List.length xs))%float in
  map (fun x => ((avg - x) * (avg - x))%float) xs.

Definition std_of (xs : list float) : float :=
  let count := List.length xs in
  if Nat.leb count 1 then nan
  else PrimFloat.sqrt (fsum (sq_deviations xs) / float_of_nat (count - 1))%float.

Definition Series_std (s : list value) : exc float :=
  (xs <- numeric_values s ;; Ok (std_of xs))%exc.

(** [Series.min()] and [Series.max()]: NaN when nothing is left. *)
Definition min_of (xs : list float) : float :=
  match xs with
  | [] => nan
  | x :: rest => fold_left fmin rest x
  end.

Definition max_of (xs : list float) : float :=
  match xs with
  | [] => nan
  | x :: rest => fold_left fmax rest x
  end.

Definition Series_min (s : list value) : exc float :=
  (xs <- numeric_values s ;; Ok (min_of xs))%exc.

Definition Series_max (s : list value) : exc float :=
  (xs <- numeric_values s ;; Ok (max_of xs))%exc.

(** ** crypto_service.py: analyze_crypto_data *)

Definition required_columns : list string :=
  ["market_cap"; "current_price"; "price_change_percentage_24h";
   "price_change_percentage_7d"; "name"; "symbol"].

(** [sub in s] on strings. *)
Definition contains (sub s : string) : bool :=
  match String.index 0 sub s with
  | Some _ => true
  | None => false
  end.

(** The value a missing column is filled with. *)
Definition default_value (col : string) : value :=
  if contains "price_change_percentage" col then VNum 0%float
  else if String.eqb col "market_cap" then VNum 0%float
  else VStr "N/A".

Definition missing_columns (df : DataFrame) : list string :=
  filter (fun col => negb (has_column df col)) required_columns.

(** The loop over [missing_columns]. *)
Definition fill_missing (df : DataFrame) : DataFrame :=
  fold_left (fun d col => setitem d col (default_value col))
            (missing_columns df) df.

(** The body of the second [try]: the statistics of the two numeric
    columns, each reduction reading its column anew. *)
Definition price_statistics (df : DataFrame) : exc (list (string * float)) :=
  (c1 <- getitem df "current_price" ;; mean_price <- Series_mean c1 ;;
   c2 <- getitem df "current_price" ;; median_price <- Series_median c2 ;;
   c3 <- getitem df "current_price" ;; price_std_dev <- Series_std c3 ;;
   c4 <- getitem df "current_price" ;; min_price <- Series_min c4 ;;
   c5 <- getitem df "current_price" ;; max_price <- Series_max c5 ;;
   Ok [("mean_price", mean_price); ("median_price", median_price);
       ("price_std_dev", price_std_dev); ("min_price", min_price);
       ("max_price", max_price)])%exc.

Definition market_cap_insights (df : DataFrame) : exc (list (string * float)) :=
  (c1 <- getitem df "market_cap" ;; total_market_cap <- Series_sum c1 ;;
   c2 <- getitem df "market_cap" ;; mean_market_cap <- Series_mean c2 ;;
   c3 <- getitem df "market_cap" ;; median_market_cap <- Series_median c3 ;;
   Ok [("total_market_cap", total_market_cap);
       ("mean_market_cap", mean_market_cap);
       ("median_market_cap", median_market_cap)])%exc.

Definition statistics (now : string) (df : DataFrame) : exc pydict :=
  (price_stats <- price_statistics df ;;
   cap_insights <- market_cap_insights df ;;
   Ok [("price_statistics", PDict price_stats);
       ("market_cap_insights", PDict cap_insights);
       ("timestamp", PStr now)])%exc.

(** [analyze_crypto_data(data)]; [now] is [str(pd.Timestamp.now())] as the
    call reads it. *)
Definition analyze_crypto_data (now : string) (data : batch) : exc pydict :=
  match data with
  | [] =>
      Ok [("error", PStr "No data available for analysis");
          ("timestamp", PStr now)]
  | _ =>
      match pd_DataFrame data with
      | Raise e =>
          Ok [("error", PStr "Failed to process data");
              ("details", PStrExn e);
              ("timestamp", PStr now)]
      | Ok df =>
          let df := fill_missing df in
          match statistics now df with
          | Ok analysis => Ok analysis
          | Raise e =>
              Ok [("error", PStr "Analysis failed");
                  ("details", PStrExn e);
                  ("timestamp", PStr now)]
          end
      end
  end.

(** ** crypto_service.py: fetch_crypto_data *)

(** What the provider's endpoint does with the request: the connection
    fails inside [requests.get] with an exception, or a response comes
    back.  [body] is [None] when the payload does not parse as JSON, and
    otherwise the decoded list of asset objects. *)
Record response : Type := mkResponse {
  status_code : Z;
  body : option batch
}.

Inductive http_outcome : Type :=
| ConnectionFailed (e : exn)
| Responded (r : response).

Definition requests_get (o : http_outcome) : exc response :=
  match o with
  | ConnectionFailed e => Raise e
  | Responded r => Ok r
  end.

(** [response.raise_for_status()]: client and server error codes raise. *)
Definition raise_for_status (r : response) : exc unit :=
  if ((400 <=? status_code r) && (status_code r <? 600))%Z
  then Raise HTTPError else Ok tt.

(** [response.json()] *)
Definition response_json (r : response) : exc batch :=
  match body r with
  | Some data => Ok data
  | None => Raise JSONDecodeError
  end.

(** The body of the [try] in [fetch_crypto_data]. *)
Definition fetch_attempt (o : http_outcome) : exc batch :=
  (r <- requests_get o ;;
   _ <- raise_for_status r ;;
   data <- response_json r ;;
   match data with
   | [] => Ok []
   | _ => Ok data
   end)%exc.

(** [fetch_crypto_data()]: both handlers return the empty list. *)
Definition fetch_crypto_data (o : http_outcome) : exc batch :=
  match fetch_attempt o with
  | Ok data => Ok data
  | Raise e => if is_RequestException e then Ok [] else Ok []
  end.

(** ** The effects of the scheduler: a trace of calls, and exceptions *)

Inductive level : Type := Warning | Error | Critical.

Inductive event : Type :=
| EvHttpGet
| EvLog (l : level) (msg : string)
| EvSleep (seconds : Z)
| EvEmit (name : string) (data : batch) (analysis : pydict)
| EvSheetClear (range : string)
| EvSheetUpdate (end_row : nat) (values : list (list value)).

Definition M (A : Type) : Type := (list event * exc A)%type.

Definition ret {A : Type} (a : A) : M A := ([], Ok a).

Definition bind {A B : Type} (m : M A) (f : A -> M B) : M B :=
  match m with
  | (t, Ok a) => let (t', r) := f a in (t ++ t', r)
  | (t, Raise e) => (t, Raise e)
  end.

Definition lift {A : Type} (r : exc A) : M A := ([], r).
Definition tell (ev : event) : M unit := ([ev], Ok tt).

(** An external call that is recorded and then returns or raises. *)
Definition call (ev : event) (result : option exn) : M unit :=
  match result with
  | None => ([ev], Ok tt)
  | Some e => ([ev], Raise e)
  end.

Declare Scope sched_scope.
Delimit Scope sched_scope with sched.
Notation "x <- m ;; k" := (bind m (fun x => k))
  (at level 61, m at next level, right associativity) : sched_scope.
Notation "m ;; k" := (bind m (fun _ => k))
  (at level 61, right associativity) : sched_scope.

(** ** google_sheets_service.py: update_sheet *)

Definition columns_to_write : list string :=
  ["name"; "symbol"; "current_price"; "market_cap"; "total_volume";
   "price_change_percentage_24h"; "market_cap_rank"; "timestamp"].

(** The two requests to the spreadsheet service: [None] when the call
    returns, the exception when it raises. *)
Record sheets_api : Type := mkSheetsApi {
  clear_result : option exn;
  update_result : option exn
}.

(** Columns the batch lacks are added with null cells. *)
Definition add_missing_columns (df : DataFrame) : DataFrame :=
  fold_left (fun d column => if has_column d column then d
                             else setitem d column VNull)
            columns_to_write df.

(** [df[columns_to_write].values.tolist()] *)
Definition row_values (df : DataFrame) (i : nat) : list value :=
  map (fun column =>
         match lookup column (columns df) with
         | Some s => nth i s VNull
         | None => VNull
         end) columns_to_write.

Definition sheet_rows (df : DataFrame) : list (list value) :=
  map (row_values df) (seq 0 (nrows df)).

(** [update_sheet(crypto_data)]; [stamp] is the formatted time of the
    write.  Whatever is raised inside is logged and raised again. *)
Definition update_sheet (api : sheets_api) (stamp : string)
  (crypto_data : batch) : M unit :=
  (df <- lift (pd_DataFrame crypto_data) ;;
   let df := add_missing_columns df in
   let df := setitem df "timestamp" (VStr stamp) in
   let sheet_data := map VStr columns_to_write :: sheet_rows df in
   let end_row := List.length sheet_data in
   call (EvSheetClear "Sheet1!A1:H51") (clear_result api) ;;
   call (EvSheetUpdate end_row sheet_data) (update_result api))%sched.

(** ** app.py: background_update *)

(** What one pass of the loop meets. *)
Record cycle_env : Type := mkCycle {
  http : http_outcome;
  clock : string;
  emit_result : option exn;
  sheets : sheets_api;
  sheet_clock : string
}.

Definition max_errors : Z := 5.

(** The [try] block of one pass; the value is the new [error_count]. *)
Definition cycle_body (sheets_service : bool) (env : cycle_env)
  (error_count : Z) : M Z :=
  (tell EvHttpGet ;;
   crypto_data <- lift (fetch_crypto_data (http env)) ;;
   match crypto_data with
   | [] =>
       tell (EvLog Warning "No crypto data fetched") ;;
       tell (EvSleep 60) ;;
       ret (error_count + 1)%Z
   | _ =>
       analysis_results <- lift (analyze_crypto_data (clock env) crypto_data) ;;
       call (EvEmit "crypto_update" crypto_data analysis_results)
            (emit_result env) ;;
       (if sheets_service
        then update_sheet (sheets env) (sheet_clock env) crypto_data
        else ret tt) ;;
       tell (EvSleep 300) ;;
       ret 0%Z
   end)%sched.

(** One pass with its [except] clause. *)
Definition cycle (sheets_service : bool) (env : cycle_env) (error_count : Z)
  : list event * Z :=
  match cycle_body sheets_service env error_count with
  | (t, Ok error_count') => (t, error_count')
  | (t, Raise e) =>
      (t ++ [EvLog Error "Background update error"; EvSleep 60],
       (error_count + 1)%Z)
  end.

(** Where the thread is when the observation ends: stopped after the
    critical log line, or still looping with the given count. *)
Inductive status : Type :=
| Halted
| Looping (error_count : Z).

(** The [while] loop, run against the passes the environment offers. *)
Fixpoint run_loop (sheets_service : bool) (script : list cycle_env)
  (error_count : Z) : list event * status :=
  if (error_count <? max_errors)%Z then
    match script with
    | [] => ([], Looping error_count)
    | env :: rest =>
        let (t, error_count') := cycle sheets_service env error_count in
        let (t', st) := run_loop sheets_service rest error_count' in
        (t ++ t', st)
    end
  else
    ([EvLog Critical "Background update stopped due to repeated errors"],
     Halted).

Definition background_update (sheets_service : bool)
  (script : list cycle_env) : list event * status :=
  run_loop sheets_service script 0%Z.

(** ** Auxiliary notions for the statements *)

Definition has_key (k : string) (r : record) : bool :=
  mem_string k (map fst r).

(** The column the statistics read for a required label: the cells of the
    records when some record has the key, the default otherwise. *)
Definition series_of (col : string) (data : batch) : list value :=
  if existsb (has_key col) data then map (cell col) data
  else repeat (default_value col) (List.length data).

(** The frame the statistics are computed on. *)
Definition analysis_frame (data : batch) : DataFrame :=
  fill_missing (frame_of_records data).






(** Sample records. *)
Definition bitcoin : record :=
  [("name", VStr "Bitcoin"); ("symbol", VStr "btc");
   ("current_price", VNum 50000%float);
   ("market_cap", VNum 1000000000%float);
   ("price_change_percentage_24h", VNum 2.5%float);
   ("price_change_percentage_7d", VNum 4%float)].

Definition ethereum_no_cap : record :=
  [("name", VStr "Ethereum"); ("symbol", VStr "eth");
   ("current_price", VNum 2000%float);
   ("price_change_percentage_24h", VNum (-1.5)%float);
   ("price_change_percentage_7d", VNum 3%float)].

Definition e2e_batch : batch :=
  [[("current_price", VNum 50000%float); ("market_cap", VNum 1e9%float)];
   [("current_price", VNum 2000%float); ("market_cap", VNum 5e8%float)]].

(** The exchanges after which the fetch has nothing to return: no
    response, a client or server error status, or a body that is not
    JSON. *)
Definition failed_exchange (o : http_outcome) : bool :=
  match o with
  | ConnectionFailed _ => true
  | Responded r =>
      ((400 <=? status_code r) && (status_code r <? 600))%Z
      || match body r with
         | None => true
         | Some _ => false
         end
  end.

Definition is_fetch (ev : event) : bool :=
  match ev with
  | EvHttpGet => true
  | _ => false
  end.

Definition count_fetches (t : list event) : nat :=
  List.length (filter is_fetch t).

Definition is_sheet_call (ev : event) : bool :=
  match ev with
  | EvSheetClear _ | EvSheetUpdate _ _ => true
  | _ => false
  end.

Definition sheets_fail (api : sheets_api) : bool :=
  match clear_result api, update_result api with
  | None, None => false
  | _, _ => true
  end.

(** A pass in which a non-empty batch is fetched and neither the
    broadcast nor the spreadsheet update raises. *)
Definition clean_cycle (sheets_service : bool) (env : cycle_env) : bool :=
  match fetch_crypto_data (http env) with
  | Ok (_ :: _) =>
      match emit_result env with
      | None => negb (sheets_service && sheets_fail (sheets env))
      | Some _ => false
      end
  | _ => false
  end.

(** The trace of a pass whose fetch came back empty. *)
Definition empty_fetch_trace : list event :=
  [EvHttpGet; EvLog Warning "No crypto data fetched"; EvSleep 60].

Definition critical_stop : event :=
  EvLog Critical "Background update stopped due to repeated errors".

(** Sample passes. *)
Definition clean_env : cycle_env :=
  {| http := Responded {| status_code := 200; body := Some [bitcoin] |};
     clock := "2024-05-01 10:00:00";
     emit_result := None;
     sheets := {| clear_result := None; update_result := None |};
     sheet_clock := "2024-05-01 10:00:00" |}.

Definition persist_failure_env : cycle_env :=
  {| http := Responded {| status_code := 200; body := Some [bitcoin] |};
     clock := "2024-05-01 10:00:00";
     emit_result := None;
     sheets := {| clear_result := None;
                  update_result := Some (OtherException "HttpError") |};
     sheet_clock := "2024-05-01 10:00:00" |}.

Definition fetch_failure_env : cycle_env :=
  {| http := Responded {| status_code := 503; body := None |};
     clock := "2024-05-01 10:00:00";
     emit_result := None;
     sheets := {| clear_result := None; update_result := None |};
     sheet_clock := "2024-05-01 10:00:00" |}.

(** ** app.py: the /crypto-data route *)

(** The JSON the route answers with. *)
Inductive route_payload : Type :=
| DataPayload (data : batch) (analysis : pydict) (timestamp : float)
| ErrorPayload (error : string) (details : exn).

(** [get_crypto_data()]: one fetch and one analysis outside the loop;
    [time] is [time.time()].  The value is the body and the status. *)
Definition get_crypto_data (o : http_outcome) (now : string) (time : float)
  : route_payload * Z :=
  match (data <- fetch_crypto_data o ;;
         analysis <- analyze_crypto_data now data ;;
         Ok (data, analysis))%exc with
  | Ok (data, analysis) => (DataPayload data analysis time, 200%Z)
  | Raise e => (ErrorPayload "Failed to fetch crypto data" e, 500%Z)
  end.

(** ** google_sheets_service.py: get_credentials and the constructor *)

(** What the service reads of a credentials object. *)
Record Credentials : Type := mkCredentials {
  valid : bool;
  expired : bool;
  refresh_token : option string;
  to_json : string
}.

(** Truth value of [credentials.refresh_token]. *)
Definition has_refresh_token (c : Credentials) : bool :=
  match refresh_token c with
  | Some t => negb (String.eqb t "")
  | None => false
  end.

(** The surroundings of the authentication: the token file ([None] when
    it does not exist, otherwise what loading it gives), what a refresh
    of given credentials gives, and what the local-server flow gives. *)
Record auth_env : Type := mkAuthEnv {
  token_file : option (exc Credentials);
  refresh_result : Credentials -> exc Credentials;
  flow_result : exc Credentials
}.

Inductive auth_event : Type :=
| AuthRefresh
| AuthFlow (port : Z)
| AuthWriteToken (json : string).

(** [get_credentials()] *)
Definition get_credentials (env : auth_env)
  : list auth_event * exc Credentials :=
  match token_file env with
  | Some (Raise e) => ([], Raise e)
  | stored =>
      let credentials :=
        match stored with
        | Some (Ok c) => Some c
        | _ => None
        end in
      let renew (attempt : list auth_event * exc Credentials) :=
        match attempt with
        | (t, Ok c) => (t ++ [AuthWriteToken (to_json c)], Ok c)
        | (t, Raise e) => (t, Raise e)
        end in
      match credentials with
      | Some c =>
          if valid c then ([], Ok c)
          else if expired c && has_refresh_token c
               then renew ([AuthRefresh], refresh_result env c)
               else renew ([AuthFlow 8080], flow_result env)
      | None => renew ([AuthFlow 8080], flow_result env)
      end
  end.



(** ** clock.py: update_sheets *)

(** The scheduled job: construct the service, fetch, write; nothing is
    caught. *)
Definition update_sheets (service : exc Credentials) (o : http_outcome)
  (api : sheets_api) (stamp : string) : M unit :=
  (_ <- lift service ;;
   tell EvHttpGet ;;
   crypto_data <- lift (fetch_crypto_data o) ;;
   update_sheet api stamp crypto_data)%sched.

(** ** Further notions for the statements *)

Definition is_string (v : value) : bool :=
  match v with
  | VStr _ => true
  | _ => false
  end.

(** The row of the sheet a record gives. *)
Definition sheet_row (stamp : string) (r : record) : list value :=
  map (fun column => if String.eqb column "timestamp" then VStr stamp
                     else cell column r) columns_to_write.

Definition sheet_header : list value := map VStr columns_to_write.

Definition is_sleep (ev : event) : bool :=
  match ev with
  | EvSleep _ => true
  | _ => false
  end.

(** The trace of one pass: a request first, a sleep of 60 or 300 seconds
    last, neither in between. *)
Definition pass_trace (t : list event) : Prop :=
  exists mid s,
    t = EvHttpGet :: mid ++ [EvSleep s]
    /\ (s = 60%Z \/ s = 300%Z)
    /\ forallb (fun ev => negb (is_fetch ev || is_sleep ev)) mid = true.

Definition failing (sheets_service : bool) (env : cycle_env) : Prop :=
  clean_cycle sheets_service env = false.

(** [n] failing passes in a row somewhere in the script. *)
Definition failure_streak (sheets_service : bool) (n : nat)
  (script : list cycle_env) : Prop :=
  exists pre fails post,
    script = pre ++ fails ++ post
    /\ List.length fails = n
    /\ Forall (failing sheets_service) fails.

(** * Properties *)

(** ** Association lists and frames *)

(** Case analysis on a test of two labels; in the equal case the second
    is replaced by the first. *)
Ltac label_cases a b :=
  let E := fresh "E" in
  destruct (String.eqb a b) eqn:E;
  [apply String.eqb_eq in E; try subst b | ].

Lemma mem_string_app k l1 l2 :
  mem_string k (l1 ++ l2) = mem_string k l1 || mem_string k l2.
Proof. unfold mem_string. apply existsb_app. Qed.

Lemma lookup_app {V : Type} k (l1 l2 : list (string * V)) :
  lookup k (l1 ++ l2) =
  match lookup k l1 with Some v => Some v | None => lookup k l2 end.
Proof.
  induction l1 as [|[k' v] l1 IH]; simpl; [reflexivity|].
  destruct (String.eqb k k'); [reflexivity | exact IH].
Qed.

Lemma lookup_absent {V : Type} k (d : list (string * V)) :
  mem_string k (map fst d) = false -> lookup k d = None.
Proof.
  induction d as [|[k' v] d IH]; simpl; [reflexivity|].
  destruct (String.eqb k k'); simpl; [discriminate | exact IH].
Qed.

Lemma lookup_present {V : Type} k (d : list (string * V)) :
  mem_string k (map fst d) = true -> exists v, lookup k d = Some v.
Proof.
  induction d as [|[k' v] d IH]; simpl; [discriminate|].
  destruct (String.eqb k k'); simpl; [eauto | exact IH].
Qed.

Lemma lookup_none_has_key k (r : record) :
  lookup k r = None -> has_key k r = false.
Proof.
  unfold has_key. intros H.
  destruct (mem_string k (map fst r)) eqn:E; [|reflexivity].
  destruct (lookup_present _ _ E) as [v Hv]. congruence.
Qed.

Lemma lookup_replace_column c col s cols :
  lookup c (replace_column col s cols) =
  if mem_string col (map fst cols) && String.eqb c col then Some s
  else lookup c cols.
Proof.
  induction cols as [|[k c0] cols IH]; simpl; [reflexivity|].
  label_cases col k; simpl.
  - destruct (String.eqb c col); reflexivity.
  - rewrite IH. label_cases c k; [|reflexivity].
    rewrite String.eqb_sym, E, andb_false_r. reflexivity.
Qed.

Lemma lookup_setitem c df col v :
  lookup c (columns (setitem df col v)) =
  if String.eqb c col then Some (repeat v (nrows df))
  else lookup c (columns df).
Proof.
  unfold setitem, has_column; simpl.
  destruct (mem_string col (map fst (columns df))) eqn:E.
  - rewrite lookup_replace_column, E. reflexivity.
  - rewrite lookup_app; simpl.
    label_cases c col.
    + rewrite (lookup_absent _ _ E). reflexivity.
    + destruct (lookup c (columns df)); reflexivity.
Qed.

Lemma nrows_fold_setitem (f : string -> value) l df :
  nrows (fold_left (fun d col => setitem d col (f col)) l df) = nrows df.
Proof.
  revert df. induction l as [|x l IH]; intros df; simpl; [reflexivity|].
  rewrite IH. reflexivity.
Qed.

Lemma lookup_fold_setitem (f : string -> value) c l df :
  lookup c (columns (fold_left (fun d col => setitem d col (f col)) l df)) =
  if mem_string c l then Some (repeat (f c) (nrows df))
  else lookup c (columns df).
Proof.
  revert df. induction l as [|x l IH]; intros df; simpl; [reflexivity|].
  rewrite IH, lookup_setitem. simpl.
  label_cases c x; simpl.
  - destruct (mem_string c l); reflexivity.
  - reflexivity.
Qed.

Lemma mem_string_filter (p : string -> bool) c l :
  mem_string c (filter p l) = mem_string c l && p c.
Proof.
  induction l as [|x l IH]; simpl; [reflexivity|].
  destruct (p x) eqn:Ep; simpl; rewrite IH.
  - label_cases c x; simpl; [|reflexivity].
    rewrite Ep. reflexivity.
  - label_cases c x; simpl; [|reflexivity].
    rewrite Ep, andb_false_r. reflexivity.
Qed.

Lemma mem_add_keys k ks seen :
  mem_string k (add_keys seen ks) = mem_string k seen || mem_string k ks.
Proof.
  revert seen. induction ks as [|x ks IH]; intros seen; simpl.
  - rewrite orb_false_r. reflexivity.
  - destruct (mem_string x seen) eqn:Ex; rewrite IH.
    + label_cases k x; simpl; [|reflexivity].
      rewrite Ex. reflexivity.
    + rewrite mem_string_app. simpl. rewrite orb_false_r, orb_assoc.
      reflexivity.
Qed.

Lemma mem_fold_add_keys k (data : batch) seen :
  mem_string k (fold_left (fun s r => add_keys s (map fst r)) data seen) =
  mem_string k seen || existsb (has_key k) data.
Proof.
  revert seen. induction data as [|r data IH]; intros seen; simpl.
  - rewrite orb_false_r. reflexivity.
  - rewrite IH, mem_add_keys, orb_assoc. reflexivity.
Qed.

Lemma mem_column_labels k data :
  mem_string k (column_labels data) = existsb (has_key k) data.
Proof. unfold column_labels. rewrite mem_fold_add_keys. reflexivity. Qed.

Lemma lookup_labelled {V : Type} (g : string -> V) c labels :
  lookup c (map (fun k => (k, g k)) labels) =
  if mem_string c labels then Some (g c) else None.
Proof.
  induction labels as [|x labels IH]; simpl; [reflexivity|].
  label_cases c x; simpl; [reflexivity | exact IH].
Qed.

Lemma has_column_labelled (g : string -> list value) c labels n :
  has_column {| nrows := n; columns := map (fun k => (k, g k)) labels |} c =
  mem_string c labels.
Proof.
  unfold has_column; simpl. rewrite map_map. simpl. rewrite map_id.
  reflexivity.
Qed.

(** The column a required label denotes once the missing ones are
    filled. *)
Lemma getitem_analysis_frame col data :
  mem_string col required_columns = true ->
  getitem (analysis_frame data) col = Ok (series_of col data).
Proof.
  intros Hreq. unfold getitem, analysis_frame, fill_missing, frame_of_records.
  rewrite lookup_fold_setitem. unfold missing_columns.
  rewrite mem_string_filter, Hreq. simpl andb.
  rewrite has_column_labelled, mem_column_labels.
  unfold series_of. simpl nrows. simpl columns.
  destruct (existsb (has_key col) data) eqn:E; simpl.
  - rewrite lookup_labelled, mem_column_labels, E. reflexivity.
  - reflexivity.
Qed.

(** ** The analysis *)

Lemma lookup_some_has_key k (r : record) v :
  lookup k r = Some v -> has_key k r = true.
Proof.
  unfold has_key. intros H.
  destruct (mem_string k (map fst r)) eqn:E; [reflexivity|].
  rewrite (lookup_absent _ _ E) in H. discriminate.
Qed.

Lemma analyze_nonempty now data :
  data <> [] ->
  analyze_crypto_data now data =
  match statistics now (analysis_frame data) with
  | Ok analysis => Ok analysis
  | Raise e =>
      Ok [("error", PStr "Analysis failed"); ("details", PStrExn e);
          ("timestamp", PStr now)]
  end.
Proof. destruct data; [congruence | reflexivity]. Qed.

Lemma price_statistics_numeric df p xs :
  getitem df "current_price" = Ok p ->
  numeric_values p = Ok xs ->
  price_statistics df =
  Ok [("mean_price", mean_of xs); ("median_price", median_of xs);
      ("price_std_dev", std_of xs); ("min_price", min_of xs);
      ("max_price", max_of xs)].
Proof.
  intros Hg Hn. unfold price_statistics.
  unfold Series_mean, Series_median, Series_std, Series_min, Series_max.
  rewrite Hg. simpl. rewrite Hn. reflexivity.
Qed.

Lemma price_statistics_raises df p e :
  getitem df "current_price" = Ok p ->
  numeric_values p = Raise e ->
  price_statistics df = Raise e.
Proof.
  intros Hg Hn. unfold price_statistics, Series_mean.
  rewrite Hg. simpl. rewrite Hn. reflexivity.
Qed.

Lemma market_cap_insights_numeric df c xs :
  getitem df "market_cap" = Ok c ->
  numeric_values c = Ok xs ->
  market_cap_insights df =
  Ok [("total_market_cap", fsum xs); ("mean_market_cap", mean_of xs);
      ("median_market_cap", median_of xs)].
Proof.
  intros Hg Hn. unfold market_cap_insights.
  unfold Series_sum, Series_mean, Series_median.
  rewrite Hg. simpl. rewrite Hn. reflexivity.
Qed.

(** The analysis returns a dictionary on every input. *)
Lemma analyze_returns now data :
  exists analysis, analyze_crypto_data now data = Ok analysis.
Proof.
  destruct data as [|r data]; [eexists; reflexivity|].
  rewrite analyze_nonempty by discriminate.
  destruct (statistics now (analysis_frame (r :: data)));
    eexists; reflexivity.
Qed.



(** C7. On the empty batch the analysis returns, without raising, the
    no-data summary: the tag ['No data available for analysis'] and the
    timestamp of the call, and neither statistics dictionary. *)
Theorem analyze_empty_batch now :
  exists a,
    analyze_crypto_data now [] = Ok a
    /\ lookup "error" a = Some (PStr "No data available for analysis")
    /\ lookup "timestamp" a = Some (PStr now)
    /\ lookup "price_statistics" a = None
    /\ lookup "market_cap_insights" a = None
    /\ remove_key "timestamp" (remove_key "error" a) = [].
Proof. eexists. repeat split; reflexivity. Qed.

(** C3, as stated, fails: two calls on the same batch that read the clock
    at different instants return different summaries. *)
Lemma analysis_differs_in_timestamp :
  analyze_crypto_data "2024-05-01 10:00:00.000001" [bitcoin] <>
  analyze_crypto_data "2024-05-01 10:00:00.000002" [bitcoin].
Proof.
  intros H.
  apply (f_equal (fun r => match r with
                           | Ok a => lookup "timestamp" a
                           | Raise _ => None
                           end)) in H.
  vm_compute in H. discriminate H.
Qed.

(** C3, amended. Two calls on the same batch return summaries that agree
    in every field other than the timestamp; the timestamp of each is the
    clock reading of its call. *)
Theorem analysis_deterministic_up_to_timestamp now1 now2 data :
  exists a1 a2,
    analyze_crypto_data now1 data = Ok a1
    /\ analyze_crypto_data now2 data = Ok a2
    /\ remove_key "timestamp" a1 = remove_key "timestamp" a2
    /\ lookup "timestamp" a1 = Some (PStr now1)
    /\ lookup "timestamp" a2 = Some (PStr now2).
Proof.
  destruct data as [|r data].
  - do 2 eexists. repeat split; reflexivity.
  - rewrite !analyze_nonempty by discriminate. unfold statistics.
    destruct (price_statistics (analysis_frame (r :: data))) as [ps|e]; simpl.
    + destruct (market_cap_insights (analysis_frame (r :: data))) as [ci|e];
        simpl; do 2 eexists; repeat split; reflexivity.
    + do 2 eexists. repeat split; reflexivity.
Qed.

(** C9. On a batch of two records with current prices 50000 and 2000 and
    market capitalisations 1e9 and 5e8 the summary has mean price 26000,
    median price 26000, minimum 2000, maximum 50000 and total market
    capitalisation 1.5e9. *)
Theorem e2e_summary now r1 r2 :
  lookup "current_price" r1 = Some (VNum 50000%float) ->
  lookup "market_cap" r1 = Some (VNum 1e9%float) ->
  lookup "current_price" r2 = Some (VNum 2000%float) ->
  lookup "market_cap" r2 = Some (VNum 5e8%float) ->
  exists prices caps,
    analyze_crypto_data now [r1; r2] =
      Ok [("price_statistics", PDict prices);
          ("market_cap_insights", PDict caps);
          ("timestamp", PStr now)]
    /\ lookup "mean_price" prices = Some 26000%float
    /\ lookup "median_price" prices = Some 26000%float
    /\ lookup "min_price" prices = Some 2000%float
    /\ lookup "max_price" prices = Some 50000%float
    /\ lookup "total_market_cap" caps = Some 1.5e9%float.
Proof.
  intros Hp1 Hc1 Hp2 Hc2.
  assert (Hp : series_of "current_price" [r1; r2]
               = [VNum 50000%float; VNum 2000%float]).
  { unfold series_of, cell. simpl existsb.
    rewrite (lookup_some_has_key _ _ _ Hp1). simpl. rewrite Hp1, Hp2.
    reflexivity. }
  assert (Hc : series_of "market_cap" [r1; r2]
               = [VNum 1e9%float; VNum 5e8%float]).
  { unfold series_of, cell. simpl existsb.
    rewrite (lookup_some_has_key _ _ _ Hc1). simpl. rewrite Hc1, Hc2.
    reflexivity. }
  rewrite analyze_nonempty by discriminate. unfold statistics.
  rewrite (price_statistics_numeric _ _ [50000%float; 2000%float]
             (getitem_analysis_frame "current_price" _ eq_refl))
    by (rewrite Hp; reflexivity).
  rewrite (market_cap_insights_numeric _ _ [1e9%float; 5e8%float]
             (getitem_analysis_frame "market_cap" _ eq_refl))
    by (rewrite Hc; reflexivity).
  simpl exc_bind. do 2 eexists. split; [reflexivity|].
  repeat split; vm_compute; reflexivity.
Qed.

Lemma e2e_summary_witness :
  exists prices caps,
    analyze_crypto_data "2024-05-01 10:00:00" e2e_batch =
      Ok [("price_statistics", PDict prices);
          ("market_cap_insights", PDict caps);
          ("timestamp", PStr "2024-05-01 10:00:00")]
    /\ lookup "mean_price" prices = Some 26000%float
    /\ lookup "median_price" prices = Some 26000%float
    /\ lookup "min_price" prices = Some 2000%float
    /\ lookup "max_price" prices = Some 50000%float
    /\ lookup "total_market_cap" caps = Some 1.5e9%float.
Proof.
  apply (e2e_summary "2024-05-01 10:00:00"
           [("current_price", VNum 50000%float); ("market_cap", VNum 1e9%float)]
           [("current_price", VNum 2000%float); ("market_cap", VNum 5e8%float)]);
    reflexivity.
Defined.

Lemma no_key_anywhere col data :
  (forall r, In r data -> lookup col r = None) ->
  existsb (has_key col) data = false.
Proof.
  induction data as [|r data IH]; intros H; simpl; [reflexivity|].
  rewrite (lookup_none_has_key col r) by (apply H; left; reflexivity).
  apply IH. intros r' Hr'. apply H. right. exact Hr'.
Qed.

(** C10. When no record of a non-empty batch has a current price, the
    price column is filled with the string ['N/A'], the statistics raise
    inside the analysis, and the analysis returns the dictionary with
    error ['Analysis failed'], the exception text and the timestamp. *)
Theorem analyze_without_prices now data :
  data <> [] ->
  (forall r, In r data -> lookup "current_price" r = None) ->
  getitem (analysis_frame data) "current_price"
    = Ok (repeat (VStr "N/A") (List.length data))
  /\ statistics now (analysis_frame data) = Raise TypeError
  /\ analyze_crypto_data now data =
       Ok [("error", PStr "Analysis failed");
           ("details", PStrExn TypeError);
           ("timestamp", PStr now)].
Proof.
  intros Hne Hnone.
  assert (Hg : getitem (analysis_frame data) "current_price"
               = Ok (repeat (VStr "N/A") (List.length data))).
  { rewrite getitem_analysis_frame by reflexivity. unfold series_of.
    rewrite (no_key_anywhere _ _ Hnone). reflexivity. }
  assert (Hs : statistics now (analysis_frame data) = Raise TypeError).
  { unfold statistics.
    rewrite (price_statistics_raises _ _ TypeError Hg); [reflexivity|].
    destruct data; [congruence | reflexivity]. }
  split; [exact Hg|]. split; [exact Hs|].
  rewrite analyze_nonempty by exact Hne. rewrite Hs. reflexivity.
Qed.

Lemma analyze_without_prices_witness :
  getitem (analysis_frame [[("name", VStr "Bitcoin")]]) "current_price"
    = Ok (repeat (VStr "N/A") 1)
  /\ statistics "2024-05-01 10:00:00" (analysis_frame [[("name", VStr "Bitcoin")]])
     = Raise TypeError
  /\ analyze_crypto_data "2024-05-01 10:00:00" [[("name", VStr "Bitcoin")]] =
       Ok [("error", PStr "Analysis failed");
           ("details", PStrExn TypeError);
           ("timestamp", PStr "2024-05-01 10:00:00")].
Proof.
  apply (analyze_without_prices "2024-05-01 10:00:00"
           [[("name", VStr "Bitcoin")]]).
  - discriminate.
  - intros r [<- | []]. reflexivity.
Defined.








(** ** The fetch *)

(** C5, as stated, fails: a response outside the 2xx range that is not a
    client or server error passes [raise_for_status], and its decoded
    body is returned. *)
Lemma redirect_status_returns_body :
  fetch_crypto_data (Responded {| status_code := 300; body := Some [bitcoin] |})
  = Ok [bitcoin]
  /\ fetch_crypto_data
       (Responded {| status_code := 300; body := Some [bitcoin] |})
     <> Ok [].
Proof. split; [reflexivity | discriminate]. Qed.

Lemma fetch_returns o : exists data, fetch_crypto_data o = Ok data.
Proof.
  unfold fetch_crypto_data.
  destruct (fetch_attempt o) as [data|e]; [eexists; reflexivity|].
  destruct (is_RequestException e); eexists; reflexivity.
Qed.

(** C5, amended. On a failed connection, a 4xx or 5xx response, or a body
    that is not JSON, the fetch returns the empty batch; and no exchange
    makes it raise. *)
Theorem fetch_failure_gives_empty_batch o :
  failed_exchange o = true ->
  fetch_crypto_data o = Ok []
  /\ forall o', exists data, fetch_crypto_data o' = Ok data.
Proof.
  intros H. split; [|exact fetch_returns].
  unfold fetch_crypto_data, fetch_attempt.
  destruct o as [e|[code b]]; simpl in *.
  - destruct (is_RequestException e); reflexivity.
  - unfold raise_for_status; simpl.
    destruct ((400 <=? code)%Z && (code <? 600)%Z); simpl; [reflexivity|].
    unfold response_json; simpl.
    destruct b; [discriminate H | reflexivity].
Qed.

Lemma fetch_failure_gives_empty_batch_witness :
  fetch_crypto_data (Responded {| status_code := 503; body := None |}) = Ok []
  /\ forall o', exists data, fetch_crypto_data o' = Ok data.
Proof.
  apply (fetch_failure_gives_empty_batch
           (Responded {| status_code := 503; body := None |})).
  reflexivity.
Defined.

(** ** The scheduler *)

Lemma update_sheet_cases api stamp data :
  exists n rows,
    update_sheet api stamp data =
    match clear_result api with
    | Some e => ([EvSheetClear "Sheet1!A1:H51"], Raise e)
    | None =>
        match update_result api with
        | Some e =>
            ([EvSheetClear "Sheet1!A1:H51"; EvSheetUpdate n rows], Raise e)
        | None =>
            ([EvSheetClear "Sheet1!A1:H51"; EvSheetUpdate n rows], Ok tt)
        end
    end.
Proof.
  unfold update_sheet, pd_DataFrame, bind, lift, call. do 2 eexists.
  destruct (clear_result api); [reflexivity|].
  destruct (update_result api); reflexivity.
Qed.

Lemma cycle_empty_fetch svc env ec :
  fetch_crypto_data (http env) = Ok [] ->
  cycle svc env ec = (empty_fetch_trace, (ec + 1)%Z).
Proof.
  intros H. unfold cycle, cycle_body, bind, lift, tell, ret.
  rewrite H. reflexivity.
Qed.

(** A pass that has a batch to work on: the broadcast comes right after
    the fetch, then the spreadsheet calls, if any. *)
Lemma cycle_with_batch svc env ec data analysis :
  fetch_crypto_data (http env) = Ok data ->
  data <> [] ->
  analyze_crypto_data (clock env) data = Ok analysis ->
  exists n rows,
    cycle svc env ec =
    let emit := EvEmit "crypto_update" data analysis in
    let clear := EvSheetClear "Sheet1!A1:H51" in
    let update := EvSheetUpdate n rows in
    let failed := [EvLog Error "Background update error"; EvSleep 60] in
    match emit_result env with
    | Some _ => ([EvHttpGet; emit] ++ failed, (ec + 1)%Z)
    | None =>
        if svc then
          match clear_result (sheets env), update_result (sheets env) with
          | Some _, _ => ([EvHttpGet; emit] ++ [clear] ++ failed, (ec + 1)%Z)
          | None, Some _ =>
              ([EvHttpGet; emit] ++ [clear; update] ++ failed, (ec + 1)%Z)
          | None, None =>
              ([EvHttpGet; emit] ++ [clear; update] ++ [EvSleep 300], 0%Z)
          end
        else ([EvHttpGet; emit] ++ [EvSleep 300], 0%Z)
    end.
Proof.
  intros Hf Hne Ha.
  destruct (update_sheet_cases (sheets env) (sheet_clock env) data)
    as (n & rows & Hu).
  exists n, rows.
  unfold cycle, cycle_body, bind, lift, tell, ret, call.
  rewrite Hf. destruct data as [|r data]; [congruence|].
  rewrite Ha. destruct (emit_result env); [reflexivity|].
  destruct svc; [|reflexivity].
  rewrite Hu.
  destruct (clear_result (sheets env)); [reflexivity|].
  destruct (update_result (sheets env)); reflexivity.
Qed.

Lemma cycle_clean svc env ec :
  clean_cycle svc env = true ->
  exists t, cycle svc env ec = (t ++ [EvSleep 300], 0%Z).
Proof.
  unfold clean_cycle. intros H.
  destruct (fetch_crypto_data (http env)) as [[|r data]|] eqn:Hf;
    try discriminate H.
  destruct (analyze_returns (clock env) (r :: data)) as [a Ha].
  destruct (cycle_with_batch svc env ec _ _ Hf ltac:(discriminate) Ha)
    as (n & rows & Hc).
  rewrite Hc. cbv zeta. unfold sheets_fail in H.
  destruct (emit_result env); [discriminate H|].
  destruct svc; [|eexists; reflexivity].
  destruct (clear_result (sheets env)); [discriminate H|].
  destruct (update_result (sheets env)); [discriminate H|].
  exists [EvHttpGet; EvEmit "crypto_update" (r :: data) a;
          EvSheetClear "Sheet1!A1:H51"; EvSheetUpdate n rows].
  reflexivity.
Qed.

Lemma cycle_unclean svc env ec :
  clean_cycle svc env = false ->
  exists t, cycle svc env ec = (t ++ [EvSleep 60], (ec + 1)%Z).
Proof.
  unfold clean_cycle. intros H.
  destruct (fetch_returns (http env)) as [data Hf]. rewrite Hf in H.
  destruct data as [|r data].
  - rewrite (cycle_empty_fetch _ _ _ Hf).
    exists [EvHttpGet; EvLog Warning "No crypto data fetched"]. reflexivity.
  - destruct (analyze_returns (clock env) (r :: data)) as [a Ha].
    destruct (cycle_with_batch svc env ec _ _ Hf ltac:(discriminate) Ha)
      as (n & rows & Hc).
    rewrite Hc. cbv zeta. unfold sheets_fail in H.
    destruct (emit_result env).
    + exists [EvHttpGet; EvEmit "crypto_update" (r :: data) a;
              EvLog Error "Background update error"]. reflexivity.
    + destruct svc; [|discriminate H].
      destruct (clear_result (sheets env)).
      * exists [EvHttpGet; EvEmit "crypto_update" (r :: data) a;
                EvSheetClear "Sheet1!A1:H51";
                EvLog Error "Background update error"]. reflexivity.
      * destruct (update_result (sheets env)); [|discriminate H].
        exists [EvHttpGet; EvEmit "crypto_update" (r :: data) a;
                EvSheetClear "Sheet1!A1:H51"; EvSheetUpdate n rows;
                EvLog Error "Background update error"]. reflexivity.
Qed.

Lemma run_loop_halted svc script ec :
  (max_errors <= ec)%Z ->
  run_loop svc script ec = ([critical_stop], Halted).
Proof.
  intros H. destruct script; simpl;
    destruct (ec <? max_errors)%Z eqn:E; try reflexivity;
    apply Z.ltb_lt in E; lia.
Qed.

Lemma run_loop_step svc env rest ec :
  (ec < max_errors)%Z ->
  run_loop svc (env :: rest) ec =
  let (t, ec') := cycle svc env ec in
  let (t', st) := run_loop svc rest ec' in
  (t ++ t', st).
Proof.
  intros H. simpl. apply Z.ltb_lt in H. rewrite H. reflexivity.
Qed.

Lemma run_loop_done svc ec :
  (ec < max_errors)%Z -> run_loop svc [] ec = ([], Looping ec).
Proof. intros H. simpl. apply Z.ltb_lt in H. rewrite H. reflexivity. Qed.

(** Passes with an empty fetch that bring the count to the maximum: one
    request each, then the critical line, and nothing of what follows. *)
Lemma run_empty_fetches svc fails rest ec :
  Forall (fun env => fetch_crypto_data (http env) = Ok []) fails ->
  (ec + Z.of_nat (List.length fails) = max_errors)%Z ->
  run_loop svc (fails ++ rest) ec =
  (List.concat (map (fun _ => empty_fetch_trace) fails) ++ [critical_stop], Halted).
Proof.
  revert ec. induction fails as [|env fails IH]; intros ec Hall Hlen.
  - simpl in Hlen. apply run_loop_halted. lia.
  - inversion Hall as [|? ? Hhead Htail]; subst.
    simpl List.length in Hlen. rewrite Nat2Z.inj_succ in Hlen.
    change ((env :: fails) ++ rest) with (env :: (fails ++ rest)).
    rewrite run_loop_step by lia.
    rewrite (cycle_empty_fetch _ _ _ Hhead).
    rewrite (IH (ec + 1)%Z Htail) by lia.
    reflexivity.
Qed.

(** Failing passes below the maximum leave the loop running with the
    count raised by their number. *)
Lemma run_unclean_below svc fails rest ec :
  Forall (fun env => clean_cycle svc env = false) fails ->
  (ec + Z.of_nat (List.length fails) < max_errors)%Z ->
  exists t,
    run_loop svc (fails ++ rest) ec =
    let (t', st) :=
      run_loop svc rest (ec + Z.of_nat (List.length fails))%Z in
    (t ++ t', st).
Proof.
  revert ec. induction fails as [|env fails IH]; intros ec Hall Hlen.
  - exists []. simpl. rewrite Z.add_0_r.
    destruct (run_loop svc rest ec). reflexivity.
  - inversion Hall as [|? ? Hhead Htail]; subst.
    simpl List.length in *. rewrite Nat2Z.inj_succ in *.
    change ((env :: fails) ++ rest) with (env :: (fails ++ rest)).
    rewrite run_loop_step by lia.
    destruct (cycle_unclean svc env ec Hhead) as [t0 Ht0]. rewrite Ht0.
    destruct (IH (ec + 1)%Z Htail ltac:(lia)) as [t1 Ht1]. rewrite Ht1.
    replace (ec + 1 + Z.of_nat (List.length fails))%Z
      with (ec + Z.succ (Z.of_nat (List.length fails)))%Z by lia.
    exists ((t0 ++ [EvSleep 60]) ++ t1).
    destruct (run_loop svc rest
                (ec + Z.succ (Z.of_nat (List.length fails)))%Z) as [t' st].
    rewrite app_assoc. reflexivity.
Qed.

(** C2. With the failure count at the maximum of 5 the loop is over:
    whatever passes the environment still offers, the thread issues no
    request, logs the critical line and stops.  In particular five passes
    in a row with an empty fetch, from count 0, make five requests and
    then halt, whatever would follow. *)
Theorem halt_after_max_errors svc script ec fails rest :
  (max_errors <= ec)%Z ->
  List.length fails = 5 ->
  Forall (fun env => fetch_crypto_data (http env) = Ok []) fails ->
  max_errors = 5%Z
  /\ run_loop svc script ec = ([critical_stop], Halted)
  /\ background_update svc (fails ++ rest) =
       (List.concat (map (fun _ => empty_fetch_trace) fails)
          ++ [critical_stop], Halted)
  /\ count_fetches (fst (background_update svc (fails ++ rest))) = 5.
Proof.
  intros Hec Hlen Hall.
  assert (Hrun : background_update svc (fails ++ rest) =
                 (List.concat (map (fun _ => empty_fetch_trace) fails)
                    ++ [critical_stop], Halted)).
  { unfold background_update. apply run_empty_fetches; [exact Hall|].
    rewrite Hlen. reflexivity. }
  split; [reflexivity|]. split; [apply run_loop_halted; exact Hec|].
  split; [exact Hrun|].
  rewrite Hrun.
  do 5 (destruct fails as [|? fails]; [discriminate Hlen|]).
  destruct fails; [reflexivity | discriminate Hlen].
Qed.

Lemma halt_after_max_errors_witness :
  max_errors = 5%Z
  /\ run_loop true [clean_env] 5 = ([critical_stop], Halted)
  /\ background_update true (repeat fetch_failure_env 5 ++ [clean_env]) =
       (List.concat (map (fun _ => empty_fetch_trace)
                         (repeat fetch_failure_env 5))
          ++ [critical_stop], Halted)
  /\ count_fetches
       (fst (background_update true
               (repeat fetch_failure_env 5 ++ [clean_env]))) = 5.
Proof.
  apply (halt_after_max_errors true [clean_env] 5
           (repeat fetch_failure_env 5) [clean_env]).
  - vm_compute. discriminate.
  - reflexivity.
  - repeat constructor.
Defined.

(** C1, as stated, fails: in a pass whose fetch and analysis succeed, an
    exception of the spreadsheet update raises the failure count. *)
Lemma persist_failure_counts_as_error :
  fetch_crypto_data (http persist_failure_env) = Ok [bitcoin]
  /\ (exists a, analyze_crypto_data (clock persist_failure_env) [bitcoin] = Ok a
                /\ lookup "error" a = None)
  /\ update_result (sheets persist_failure_env)
     = Some (OtherException "HttpError")
  /\ snd (cycle true persist_failure_env 0) = 1%Z.
Proof.
  split; [reflexivity|]. split; [|split; reflexivity].
  eexists. split; vm_compute; reflexivity.
Qed.

(** C1, amended. In a pass whose fetch and analysis succeed and whose
    broadcast is sent, an exception of the spreadsheet update neither
    prevents nor delays the broadcast, which is emitted right after the
    fetch and before any spreadsheet call; the exception then reaches the
    handler of the loop: it is logged, the failure count goes up by one
    and the thread sleeps 60 seconds. *)
Theorem persist_failure_follows_broadcast env ec data :
  fetch_crypto_data (http env) = Ok data ->
  data <> [] ->
  emit_result env = None ->
  sheets_fail (sheets env) = true ->
  exists analysis sheet_calls,
    analyze_crypto_data (clock env) data = Ok analysis
    /\ cycle true env ec =
         ([EvHttpGet; EvEmit "crypto_update" data analysis]
            ++ sheet_calls
            ++ [EvLog Error "Background update error"; EvSleep 60],
          (ec + 1)%Z)
    /\ forallb is_sheet_call sheet_calls = true.
Proof.
  intros Hf Hne Hemit Hfail.
  destruct (analyze_returns (clock env) data) as [a Ha].
  destruct (cycle_with_batch true env ec data a Hf Hne Ha)
    as (n & rows & Hc).
  exists a. rewrite Hc, Hemit. cbv zeta. unfold sheets_fail in Hfail.
  destruct (clear_result (sheets env)).
  - exists [EvSheetClear "Sheet1!A1:H51"]. repeat split; try reflexivity.
    exact Ha.
  - destruct (update_result (sheets env)); [|discriminate Hfail].
    exists [EvSheetClear "Sheet1!A1:H51"; EvSheetUpdate n rows].
    repeat split; try reflexivity. exact Ha.
Qed.

Lemma persist_failure_follows_broadcast_witness :
  exists analysis sheet_calls,
    analyze_crypto_data (clock persist_failure_env) [bitcoin] = Ok analysis
    /\ cycle true persist_failure_env 2 =
         ([EvHttpGet; EvEmit "crypto_update" [bitcoin] analysis]
            ++ sheet_calls
            ++ [EvLog Error "Background update error"; EvSleep 60],
          (2 + 1)%Z)
    /\ forallb is_sheet_call sheet_calls = true.
Proof.
  apply (persist_failure_follows_broadcast persist_failure_env 2 [bitcoin]).
  - reflexivity.
  - discriminate.
  - reflexivity.
  - reflexivity.
Defined.

(** C6, as stated, fails: a pass whose fetch and analysis succeed does
    not reset the count when the spreadsheet update raises; the count
    goes from 3 to 4 and the thread sleeps 60 seconds. *)
Lemma no_reset_when_persist_fails :
  fetch_crypto_data (http persist_failure_env) = Ok [bitcoin]
  /\ (exists a, analyze_crypto_data (clock persist_failure_env) [bitcoin] = Ok a
                /\ lookup "error" a = None)
  /\ snd (cycle true persist_failure_env 3) = 4%Z
  /\ last (fst (cycle true persist_failure_env 3)) EvHttpGet = EvSleep 60.
Proof.
  split; [reflexivity|]. split; [|split; reflexivity].
  eexists. split; vm_compute; reflexivity.
Qed.

(** C6, amended. A pass in which a non-empty batch is fetched and neither
    the broadcast nor the spreadsheet update raises sets the failure
    count to zero and ends with a sleep of 300 seconds.  So after three
    failing passes and such a pass the count is 0, and four more failing
    passes leave the loop running, with count 4. *)
Theorem clean_cycle_resets_budget svc env ec before after :
  clean_cycle svc env = true ->
  List.length before = 3 ->
  Forall (fun e => clean_cycle svc e = false) before ->
  List.length after = 4 ->
  Forall (fun e => clean_cycle svc e = false) after ->
  (exists t, cycle svc env ec = (t ++ [EvSleep 300], 0%Z))
  /\ (exists t, background_update svc (before ++ [env]) = (t, Looping 0))
  /\ (exists t,
        background_update svc (before ++ env :: after) = (t, Looping 4)).
Proof.
  intros Hclean Hb Hball Ha Haall.
  split; [apply cycle_clean; exact Hclean|].
  assert (H4 : exists t, run_loop svc after 0 = (t, Looping 4)).
  { destruct (run_unclean_below svc after [] 0 Haall) as [t Ht].
    - rewrite Ha. reflexivity.
    - rewrite app_nil_r in Ht. rewrite Ht, Ha.
      rewrite run_loop_done by reflexivity. eexists. reflexivity. }
  unfold background_update. split.
  - destruct (run_unclean_below svc before [env] 0 Hball) as [t Ht].
    { rewrite Hb. reflexivity. }
    rewrite Ht, Hb. rewrite run_loop_step by reflexivity.
    destruct (cycle_clean svc env (0 + Z.of_nat 3) Hclean) as [t0 Ht0].
    rewrite Ht0. rewrite run_loop_done by reflexivity.
    eexists. reflexivity.
  - destruct (run_unclean_below svc before (env :: after) 0 Hball) as [t Ht].
    { rewrite Hb. reflexivity. }
    rewrite Ht, Hb. rewrite run_loop_step by reflexivity.
    destruct (cycle_clean svc env (0 + Z.of_nat 3) Hclean) as [t0 Ht0].
    rewrite Ht0. destruct H4 as [t4 Ht4]. rewrite Ht4.
    eexists. reflexivity.
Qed.

Lemma clean_cycle_resets_budget_witness :
  (exists t, cycle true clean_env 3 = (t ++ [EvSleep 300], 0%Z))
  /\ (exists t,
        background_update true (repeat fetch_failure_env 3 ++ [clean_env])
        = (t, Looping 0))
  /\ (exists t,
        background_update true
          (repeat fetch_failure_env 3
             ++ clean_env :: repeat persist_failure_env 4)
        = (t, Looping 4)).
Proof.
  apply (clean_cycle_resets_budget true clean_env 3
           (repeat fetch_failure_env 3) (repeat persist_failure_env 4)).
  - reflexivity.
  - reflexivity.
  - repeat constructor.
  - reflexivity.
  - repeat constructor.
Defined.

(** * Further properties of the code *)

(** ** The analysis *)

Lemma has_key_lookup k (r : record) :
  has_key k r = match lookup k r with Some _ => true | None => false end.
Proof.
  destruct (lookup k r) eqn:E.
  - apply (lookup_some_has_key _ _ _ E).
  - apply (lookup_none_has_key _ _ E).
Qed.

Lemma numeric_values_cases s :
  (existsb is_string s = true /\ numeric_values s = Raise TypeError)
  \/ (existsb is_string s = false /\ exists xs, numeric_values s = Ok xs).
Proof.
  induction s as [|v s IH]; simpl.
  - right. split; [reflexivity | eexists; reflexivity].
  - destruct v as [x|str|]; simpl.
    + destruct IH as [[Hs Hn]|[Hs [xs Hn]]]; rewrite Hn; simpl.
      * left. split; [exact Hs | reflexivity].
      * right. split; [exact Hs | eexists; reflexivity].
    + left. split; reflexivity.
    + exact IH.
Qed.

Lemma statistics_cases now data :
  let prices := series_of "current_price" data in
  let caps := series_of "market_cap" data in
  statistics now (analysis_frame data) =
  match numeric_values prices, numeric_values caps with
  | Ok xs, Ok ys =>
      Ok [("price_statistics",
           PDict [("mean_price", mean_of xs); ("median_price", median_of xs);
                  ("price_std_dev", std_of xs); ("min_price", min_of xs);
                  ("max_price", max_of xs)]);
          ("market_cap_insights",
           PDict [("total_market_cap", fsum ys); ("mean_market_cap", mean_of ys);
                  ("median_market_cap", median_of ys)]);
          ("timestamp", PStr now)]
  | Ok _, Raise e => Raise e
  | Raise e, _ => Raise e
  end.
Proof.
  cbv zeta. unfold statistics.
  destruct (numeric_values (series_of "current_price" data)) as [xs|e] eqn:Hp.
  - rewrite (price_statistics_numeric _ _ xs
               (getitem_analysis_frame "current_price" _ eq_refl) Hp).
    simpl exc_bind.
    destruct (numeric_values (series_of "market_cap" data)) as [ys|e] eqn:Hc.
    + rewrite (market_cap_insights_numeric _ _ ys
                 (getitem_analysis_frame "market_cap" _ eq_refl) Hc).
      reflexivity.
    + unfold market_cap_insights, Series_sum.
      rewrite (getitem_analysis_frame "market_cap" _ eq_refl).
      simpl. rewrite Hc. reflexivity.
  - rewrite (price_statistics_raises _ _ e
               (getitem_analysis_frame "current_price" _ eq_refl) Hp).
    reflexivity.
Qed.

(** X1. The summary is never half built: the analysis returns either an
    error dictionary that has a message and the timestamp and neither
    statistics entry, or the full summary, with the five price
    statistics, the three capitalisation figures and the timestamp, and
    no error entry. *)
Theorem analysis_never_partial now data :
  exists a,
    analyze_crypto_data now data = Ok a
    /\ lookup "timestamp" a = Some (PStr now)
    /\ ((exists msg, lookup "error" a = Some (PStr msg)
                     /\ lookup "price_statistics" a = None
                     /\ lookup "market_cap_insights" a = None)
        \/ (exists prices caps,
              lookup "error" a = None
              /\ lookup "price_statistics" a = Some (PDict prices)
              /\ lookup "market_cap_insights" a = Some (PDict caps)
              /\ map fst prices =
                   ["mean_price"; "median_price"; "price_std_dev";
                    "min_price"; "max_price"]
              /\ map fst caps =
                   ["total_market_cap"; "mean_market_cap";
                    "median_market_cap"])).
Proof.
  destruct data as [|r data].
  - eexists. split; [reflexivity|]. split; [reflexivity|].
    left. eexists. repeat split; reflexivity.
  - rewrite analyze_nonempty by discriminate. rewrite statistics_cases.
    cbv zeta.
    destruct (numeric_values (series_of "current_price" (r :: data)))
      as [xs|e].
    + destruct (numeric_values (series_of "market_cap" (r :: data)))
        as [ys|e].
      * eexists. split; [reflexivity|]. split; [reflexivity|].
        right. do 2 eexists. repeat split; reflexivity.
      * eexists. split; [reflexivity|]. split; [reflexivity|].
        left. eexists. repeat split; reflexivity.
    + eexists. split; [reflexivity|]. split; [reflexivity|].
      left. eexists. repeat split; reflexivity.
Qed.

Lemma existsb_is_string_cells col (data : batch) :
  existsb is_string (map (cell col) data) = true <->
  exists r s, In r data /\ lookup col r = Some (VStr s).
Proof.
  induction data as [|r data IH]; simpl.
  - split; [discriminate | intros (r & s & [] & _)].
  - rewrite orb_true_iff, IH. split.
    + intros [H|(r' & s & Hin & Hl)].
      * unfold cell in H. destruct (lookup col r) as [[x|s|]|] eqn:E;
          try discriminate H.
        exists r, s. split; [left; reflexivity | exact E].
      * exists r', s. split; [right; exact Hin | exact Hl].
    + intros (r' & s & [<-|Hin] & Hl).
      * left. unfold cell. rewrite Hl. reflexivity.
      * right. exists r', s. split; assumption.
Qed.

Lemma existsb_has_key col (data : batch) :
  existsb (has_key col) data = true <->
  exists r, In r data /\ lookup col r <> None.
Proof.
  rewrite existsb_exists. split; intros (r & Hin & H); exists r;
    (split; [exact Hin|]); rewrite has_key_lookup in *;
    destruct (lookup col r); congruence.
Qed.

Lemma existsb_repeat (f : value -> bool) v n :
  existsb f (repeat v (S n)) = f v.
Proof.
  induction n as [|n IH]; simpl in *.
  - apply orb_false_r.
  - rewrite IH. apply orb_diag.
Qed.

(** X2. On a non-empty batch the analysis ends in ['Analysis failed']
    exactly when no record has a current price, or the current price or
    the market capitalisation of some record is a string; otherwise it
    returns the statistics.  One such record spoils the whole batch. *)
Theorem analysis_fails_iff_not_numeric now data :
  data <> [] ->
  exists a,
    analyze_crypto_data now data = Ok a
    /\ (lookup "error" a = Some (PStr "Analysis failed") <->
        ((forall r, In r data -> lookup "current_price" r = None)
         \/ exists r s, In r data
              /\ (lookup "current_price" r = Some (VStr s)
                  \/ lookup "market_cap" r = Some (VStr s))))
    /\ (lookup "error" a = None \/
        lookup "error" a = Some (PStr "Analysis failed")).
Proof.
  intros Hne.
  assert (Hp : existsb is_string (series_of "current_price" data) = true <->
               ((forall r, In r data -> lookup "current_price" r = None)
                \/ exists r s, In r data
                     /\ lookup "current_price" r = Some (VStr s))).
  { unfold series_of.
    destruct (existsb (has_key "current_price") data) eqn:E.
    - rewrite existsb_is_string_cells. split; [intros H; right; exact H|].
      intros [Hnone|H]; [|exact H].
      apply existsb_has_key in E. destruct E as (r & Hin & Hl).
      exfalso. apply Hl, Hnone, Hin.
    - destruct data as [|r0 data]; [congruence|].
      simpl List.length. rewrite existsb_repeat.
      split; [|reflexivity]. intros _. left. intros r Hin.
      destruct (lookup "current_price" r) eqn:El; [|reflexivity].
      assert (existsb (has_key "current_price") (r0 :: data) = true)
        as Hk by (apply existsb_has_key; exists r; split;
                  [exact Hin | congruence]).
      congruence. }
  assert (Hc : existsb is_string (series_of "market_cap" data) = true <->
               exists r s, In r data
                 /\ lookup "market_cap" r = Some (VStr s)).
  { unfold series_of.
    destruct (existsb (has_key "market_cap") data) eqn:E.
    - apply existsb_is_string_cells.
    - destruct data as [|r0 data]; [congruence|].
      simpl List.length. rewrite existsb_repeat.
      split; [discriminate|]. intros (r & s & Hin & Hl).
      assert (existsb (has_key "market_cap") (r0 :: data) = true)
        as Hk by (apply existsb_has_key; exists r; split;
                  [exact Hin | congruence]).
      congruence. }
  rewrite analyze_nonempty by exact Hne. rewrite statistics_cases. cbv zeta.
  destruct (numeric_values_cases (series_of "current_price" data))
    as [[Hsp Hnp]|[Hsp [xs Hnp]]]; rewrite Hnp.
  - eexists. split; [reflexivity|]. split; [|right; reflexivity].
    split; [intros _|reflexivity].
    apply Hp in Hsp. destruct Hsp as [H|(r & s & Hin & Hl)];
      [left; exact H | right; exists r, s; tauto].
  - destruct (numeric_values_cases (series_of "market_cap" data))
      as [[Hsc Hnc]|[Hsc [ys Hnc]]]; rewrite Hnc.
    + eexists. split; [reflexivity|]. split; [|right; reflexivity].
      split; [intros _|reflexivity].
      apply Hc in Hsc. destruct Hsc as (r & s & Hin & Hl).
      right. exists r, s. tauto.
    + eexists. split; [reflexivity|]. split; [|left; reflexivity].
      split; [discriminate|].
      intros [Hnone|(r & s & Hin & [Hl|Hl])]; exfalso.
      * assert (existsb is_string (series_of "current_price" data) = true)
          by (apply Hp; left; exact Hnone). congruence.
      * assert (existsb is_string (series_of "current_price" data) = true)
          by (apply Hp; right; exists r, s; tauto). congruence.
      * assert (existsb is_string (series_of "market_cap" data) = true)
          by (apply Hc; exists r, s; tauto). congruence.
Qed.

Lemma analysis_fails_iff_not_numeric_witness :
  exists a,
    analyze_crypto_data "2024-05-01 10:00:00" [bitcoin; ethereum_no_cap] = Ok a
    /\ (lookup "error" a = Some (PStr "Analysis failed") <->
        ((forall r, In r [bitcoin; ethereum_no_cap] ->
                    lookup "current_price" r = None)
         \/ exists r s, In r [bitcoin; ethereum_no_cap]
              /\ (lookup "current_price" r = Some (VStr s)
                  \/ lookup "market_cap" r = Some (VStr s))))
    /\ (lookup "error" a = None \/
        lookup "error" a = Some (PStr "Analysis failed")).
Proof.
  apply (analysis_fails_iff_not_numeric "2024-05-01 10:00:00"
           [bitcoin; ethereum_no_cap]).
  discriminate.
Defined.

Lemma series_of_agree col (d1 d2 : batch) :
  Forall2 (fun r1 r2 => lookup col r1 = lookup col r2) d1 d2 ->
  series_of col d1 = series_of col d2.
Proof.
  intros H.
  assert (existsb (has_key col) d1 = existsb (has_key col) d2
          /\ map (cell col) d1 = map (cell col) d2
          /\ List.length d1 = List.length d2) as (Hk & Hm & Hl).
  { induction H as [|r1 r2 d1 d2 Hr _ (Hk & Hm & Hl)]; simpl.
    - repeat split.
    - rewrite Hk, Hm, Hl, !has_key_lookup. unfold cell at 1 2. rewrite Hr.
      repeat split. }
  unfold series_of. rewrite Hk, Hm, Hl. reflexivity.
Qed.

(** X3. The analysis reads nothing but the current price and the market
    capitalisation of each record: two batches whose records agree, one
    by one, on these two fields get the same summary, whatever their
    other fields (names, symbols, percentage changes) are. *)
Theorem analysis_reads_price_and_cap_only now d1 d2 :
  Forall2 (fun r1 r2 =>
             lookup "current_price" r1 = lookup "current_price" r2
             /\ lookup "market_cap" r1 = lookup "market_cap" r2) d1 d2 ->
  analyze_crypto_data now d1 = analyze_crypto_data now d2.
Proof.
  intros H.
  assert (Hp : series_of "current_price" d1 = series_of "current_price" d2).
  { apply series_of_agree. eapply Forall2_impl; [|exact H].
    intros r1 r2 [Hr _]. exact Hr. }
  assert (Hc : series_of "market_cap" d1 = series_of "market_cap" d2).
  { apply series_of_agree. eapply Forall2_impl; [|exact H].
    intros r1 r2 [_ Hr]. exact Hr. }
  destruct H as [|r1 r2 d1 d2 _ _]; [reflexivity|].
  rewrite !analyze_nonempty by discriminate.
  rewrite !statistics_cases. cbv zeta. rewrite Hp, Hc. reflexivity.
Qed.

Lemma analysis_reads_price_and_cap_only_witness :
  analyze_crypto_data "2024-05-01 10:00:00" [bitcoin] =
  analyze_crypto_data "2024-05-01 10:00:00"
    [[("current_price", VNum 50000%float);
      ("market_cap", VNum 1000000000%float);
      ("name", VNull)]].
Proof.
  apply (analysis_reads_price_and_cap_only "2024-05-01 10:00:00" [bitcoin]
           [[("current_price", VNum 50000%float);
             ("market_cap", VNum 1000000000%float);
             ("name", VNull)]]).
  repeat constructor.
Defined.

Lemma fold_fmin_in xs x :
  fold_left fmin xs x = x \/ In (fold_left fmin xs x) xs.
Proof.
  revert x. induction xs as [|y xs IH]; intros x; simpl; [left; reflexivity|].
  destruct (IH (fmin x y)) as [H|H]; [|right; right; exact H].
  rewrite H. unfold fmin. destruct (PrimFloat.ltb y x); auto.
Qed.

Lemma fold_fmax_in xs x :
  fold_left fmax xs x = x \/ In (fold_left fmax xs x) xs.
Proof.
  revert x. induction xs as [|y xs IH]; intros x; simpl; [left; reflexivity|].
  destruct (IH (fmax x y)) as [H|H]; [|right; right; exact H].
  rewrite H. unfold fmax. destruct (PrimFloat.ltb x y); auto.
Qed.

Lemma numeric_values_in s xs x :
  numeric_values s = Ok xs -> In x xs -> In (VNum x) s.
Proof.
  revert xs. induction s as [|v s IH]; intros xs H Hin; simpl in H.
  - injection H as <-. destruct Hin.
  - destruct v as [y| |]; simpl in H.
    + destruct (numeric_values s) as [ys|]; simpl in H; [|discriminate].
      injection H as <-. destruct (is_nan y).
      * right. apply (IH ys eq_refl Hin).
      * destruct Hin as [<-|Hin]; [left; reflexivity|].
        right. apply (IH ys eq_refl Hin).
    + discriminate.
    + right. apply (IH xs H Hin).
Qed.

Lemma series_of_number col data x :
  In (VNum x) (series_of col data) ->
  (exists r, In r data /\ lookup col r = Some (VNum x))
  \/ ((forall r, In r data -> lookup col r = None)
      /\ default_value col = VNum x).
Proof.
  unfold series_of. destruct (existsb (has_key col) data) eqn:E; intros H.
  - left. apply in_map_iff in H. destruct H as (r & Hc & Hin).
    exists r. split; [exact Hin|]. unfold cell in Hc.
    destruct (lookup col r); [congruence | discriminate].
  - right. apply repeat_spec in H. split; [|symmetry; exact H].
    intros r Hin. destruct (lookup col r) eqn:El; [|reflexivity].
    assert (existsb (has_key col) data = true)
      by (apply existsb_has_key; exists r; split; [exact Hin | congruence]).
    congruence.
Qed.

(** X4. The minimum and the maximum price of a summary are prices of the
    batch: each is the current price of some record, or NaN when no
    record has a usable price. *)
Theorem extreme_prices_occur_in_batch now data a prices lo hi :
  analyze_crypto_data now data = Ok a ->
  lookup "price_statistics" a = Some (PDict prices) ->
  lookup "min_price" prices = Some lo ->
  lookup "max_price" prices = Some hi ->
  (is_nan lo = true
   \/ exists r, In r data /\ lookup "current_price" r = Some (VNum lo))
  /\ (is_nan hi = true
      \/ exists r, In r data /\ lookup "current_price" r = Some (VNum hi)).
Proof.
  intros Ha Hs Hlo Hhi.
  destruct data as [|r0 data]; [injection Ha as <-; discriminate Hs|].
  rewrite analyze_nonempty in Ha by discriminate.
  rewrite statistics_cases in Ha. cbv zeta in Ha.
  destruct (numeric_values (series_of "current_price" (r0 :: data)))
    as [xs|e] eqn:Hn; [|injection Ha as <-; discriminate Hs].
  destruct (numeric_values (series_of "market_cap" (r0 :: data)))
    as [ys|e]; injection Ha as <-; [|discriminate Hs].
  simpl in Hs. injection Hs as <-. simpl in Hlo, Hhi.
  injection Hlo as <-. injection Hhi as <-.
  assert (Hsrc : forall x, In x xs ->
            exists r, In r (r0 :: data)
                      /\ lookup "current_price" r = Some (VNum x)).
  { intros x Hx. pose proof (numeric_values_in _ _ _ Hn Hx) as Hv.
    apply series_of_number in Hv. destruct Hv as [H|[_ H]]; [exact H|].
    discriminate H. }
  destruct xs as [|x xs]; [split; left; reflexivity|].
  split; right; apply Hsrc; simpl.
  - destruct (fold_fmin_in xs x) as [H|H]; [left; symmetry; exact H|].
    right; exact H.
  - destruct (fold_fmax_in xs x) as [H|H]; [left; symmetry; exact H|].
    right; exact H.
Qed.

Lemma extreme_prices_occur_in_batch_witness :
  (is_nan 2000%float = true
   \/ exists r, In r e2e_batch
                /\ lookup "current_price" r = Some (VNum 2000%float))
  /\ (is_nan 50000%float = true
      \/ exists r, In r e2e_batch
                   /\ lookup "current_price" r = Some (VNum 50000%float)).
Proof.
  apply (extreme_prices_occur_in_batch "2024-05-01 10:00:00" e2e_batch
           [("price_statistics",
             PDict [("mean_price", 26000%float); ("median_price", 26000%float);
                    ("price_std_dev", 0x1.092a40412304cp+15%float);
                    ("min_price", 2000%float); ("max_price", 50000%float)]);
            ("market_cap_insights",
             PDict [("total_market_cap", 1500000000%float);
                    ("mean_market_cap", 750000000%float);
                    ("median_market_cap", 750000000%float)]);
            ("timestamp", PStr "2024-05-01 10:00:00")]
           [("mean_price", 26000%float); ("median_price", 26000%float);
            ("price_std_dev", 0x1.092a40412304cp+15%float);
            ("min_price", 2000%float); ("max_price", 50000%float)]);
    vm_compute; reflexivity.
Defined.

(** ** The fetch and the route *)

(** X5. The fetch hands the provider's records on unchanged: it returns a
    non-empty batch exactly when a response came whose status is not a
    client or server error and whose body decodes to that batch. *)
Theorem fetch_returns_body_unchanged o data :
  data <> [] ->
  (fetch_crypto_data o = Ok data <->
   exists code,
     o = Responded {| status_code := code; body := Some data |}
     /\ (code < 400 \/ 600 <= code)%Z).
Proof.
  intros Hne. unfold fetch_crypto_data, fetch_attempt. split.
  - destruct o as [e|[code b]]; simpl.
    + destruct (is_RequestException e); intros H; injection H as <-;
        congruence.
    + unfold raise_for_status, response_json; simpl.
      destruct ((400 <=? code)%Z && (code <? 600)%Z) eqn:E; simpl.
      * intros H; injection H as <-; congruence.
      * destruct b as [d|]; simpl.
        -- intros H. exists code. split.
           ++ destruct d; injection H as <-; [congruence | reflexivity].
           ++ apply andb_false_iff in E. destruct E as [E|E];
                [apply Z.leb_gt in E | apply Z.ltb_ge in E]; lia.
        -- intros H; injection H as <-; congruence.
  - intros (code & -> & Hcode). simpl.
    unfold raise_for_status, response_json; simpl.
    replace ((400 <=? code)%Z && (code <? 600)%Z) with false.
    + simpl. destruct data; [congruence | reflexivity].
    + symmetry. apply andb_false_iff. destruct Hcode.
      * left. apply Z.leb_gt. lia.
      * right. apply Z.ltb_ge. lia.
Qed.

Lemma fetch_returns_body_unchanged_witness :
  fetch_crypto_data
    (Responded {| status_code := 200; body := Some [bitcoin] |}) = Ok [bitcoin]
  <-> exists code,
        Responded {| status_code := 200; body := Some [bitcoin] |} =
        Responded {| status_code := code; body := Some [bitcoin] |}
        /\ (code < 400 \/ 600 <= code)%Z.
Proof.
  apply (fetch_returns_body_unchanged
           (Responded {| status_code := 200; body := Some [bitcoin] |})
           [bitcoin]).
  discriminate.
Defined.

Lemma fetch_after_failed_exchange o :
  failed_exchange o = true -> fetch_crypto_data o = Ok [].
Proof.
  intros H. unfold fetch_crypto_data, fetch_attempt.
  destruct o as [e|[code b]]; simpl in *.
  - destruct (is_RequestException e); reflexivity.
  - unfold raise_for_status, response_json; simpl.
    destruct ((400 <=? code)%Z && (code <? 600)%Z); simpl; [reflexivity|].
    destruct b; [discriminate H | reflexivity].
Qed.

(** X6. The route [/crypto-data] never answers with its error body: the
    status is 200 on every exchange.  After a failed exchange the answer
    carries the empty list as data and the no-data dictionary as
    analysis. *)
Theorem route_answers_200 o now time :
  failed_exchange o = true ->
  get_crypto_data o now time =
    (DataPayload []
       [("error", PStr "No data available for analysis");
        ("timestamp", PStr now)] time, 200%Z)
  /\ forall o', exists data analysis,
       get_crypto_data o' now time = (DataPayload data analysis time, 200%Z)
       /\ fetch_crypto_data o' = Ok data
       /\ analyze_crypto_data now data = Ok analysis.
Proof.
  intros Hfail. split.
  - unfold get_crypto_data.
    rewrite (fetch_after_failed_exchange o Hfail). reflexivity.
  - intros o'. unfold get_crypto_data.
    destruct (fetch_returns o') as [data Hd].
    destruct (analyze_returns now data) as [a Ha].
    exists data, a. rewrite Hd. simpl. rewrite Ha. repeat split; reflexivity.
Qed.

Lemma route_answers_200_witness :
  get_crypto_data (ConnectionFailed RequestException)
    "2024-05-01 10:00:00" 1714557600%float =
    (DataPayload []
       [("error", PStr "No data available for analysis");
        ("timestamp", PStr "2024-05-01 10:00:00")] 1714557600%float, 200%Z)
  /\ forall o', exists data analysis,
       get_crypto_data o' "2024-05-01 10:00:00" 1714557600%float =
         (DataPayload data analysis 1714557600%float, 200%Z)
       /\ fetch_crypto_data o' = Ok data
       /\ analyze_crypto_data "2024-05-01 10:00:00" data = Ok analysis.
Proof.
  apply (route_answers_200 (ConnectionFailed RequestException)
           "2024-05-01 10:00:00" 1714557600%float).
  reflexivity.
Defined.

(** ** The loop *)

Lemma cycle_counter svc env ec :
  snd (cycle svc env ec) = if clean_cycle svc env then 0%Z else (ec + 1)%Z.
Proof.
  destruct (clean_cycle svc env) eqn:E.
  - destruct (cycle_clean svc env ec E) as [t ->]. reflexivity.
  - destruct (cycle_unclean svc env ec E) as [t ->]. reflexivity.
Qed.

Lemma run_loop_status_step svc env rest ec :
  (ec < max_errors)%Z ->
  snd (run_loop svc (env :: rest) ec) =
  snd (run_loop svc rest (snd (cycle svc env ec))).
Proof.
  intros H. rewrite run_loop_step by exact H.
  destruct (cycle svc env ec) as [t ec']. simpl.
  destruct (run_loop svc rest ec'). reflexivity.
Qed.

Lemma run_loop_trace_step svc env rest ec :
  (ec < max_errors)%Z ->
  fst (run_loop svc (env :: rest) ec) =
  fst (cycle svc env ec) ++ fst (run_loop svc rest (snd (cycle svc env ec))).
Proof.
  intros H. rewrite run_loop_step by exact H.
  destruct (cycle svc env ec) as [t ec']. simpl.
  destruct (run_loop svc rest ec'). reflexivity.
Qed.

Lemma run_loop_status_halted svc script ec :
  (max_errors <= ec)%Z -> snd (run_loop svc script ec) = Halted.
Proof. intros H. rewrite run_loop_halted by exact H. reflexivity. Qed.

(** Failing passes that bring the count to the maximum halt the loop. *)
Lemma failures_halt svc fails post ec :
  Forall (failing svc) fails ->
  (max_errors <= ec + Z.of_nat (List.length fails))%Z ->
  snd (run_loop svc (fails ++ post) ec) = Halted.
Proof.
  revert ec. induction fails as [|env fails IH]; intros ec Hall Hlen.
  - simpl in Hlen. apply run_loop_status_halted. lia.
  - destruct (Z_lt_ge_dec ec max_errors) as [Hlt|Hge];
      [|apply run_loop_status_halted; lia].
    inversion Hall as [|? ? Hhead Htail]; subst.
    change ((env :: fails) ++ post) with (env :: (fails ++ post)).
    rewrite run_loop_status_step by exact Hlt.
    rewrite cycle_counter. unfold failing in Hhead. rewrite Hhead.
    apply IH; [exact Htail|].
    simpl List.length in Hlen. rewrite Nat2Z.inj_succ in Hlen. lia.
Qed.

Lemma halts_after_prefix svc pre rest ec :
  (0 <= ec)%Z ->
  (forall ec', (0 <= ec')%Z -> snd (run_loop svc rest ec') = Halted) ->
  snd (run_loop svc (pre ++ rest) ec) = Halted.
Proof.
  revert ec. induction pre as [|env pre IH]; intros ec Hec Hrest.
  - apply Hrest. exact Hec.
  - destruct (Z_lt_ge_dec ec max_errors) as [Hlt|Hge];
      [|apply run_loop_status_halted; lia].
    change ((env :: pre) ++ rest) with (env :: (pre ++ rest)).
    rewrite run_loop_status_step by exact Hlt.
    apply IH; [|exact Hrest].
    rewrite cycle_counter. destruct (clean_cycle svc env); lia.
Qed.

Lemma halted_has_streak svc script ec :
  (0 <= ec <= max_errors)%Z ->
  snd (run_loop svc script ec) = Halted ->
  (exists fails post,
      script = fails ++ post
      /\ Forall (failing svc) fails
      /\ (Z.of_nat (List.length fails) = max_errors - ec)%Z)
  \/ failure_streak svc 5 script.
Proof.
  revert ec. induction script as [|env rest IH]; intros ec Hec Hhalt.
  - destruct (Z_lt_ge_dec ec max_errors) as [Hlt|Hge].
    + rewrite run_loop_done in Hhalt by exact Hlt. discriminate Hhalt.
    + left. exists [], []. split; [reflexivity|]. split; [constructor|].
      unfold max_errors in *. cbn [List.length Z.of_nat]. lia.
  - destruct (Z_lt_ge_dec ec max_errors) as [Hlt|Hge].
    + rewrite run_loop_status_step in Hhalt by exact Hlt.
      rewrite cycle_counter in Hhalt.
      destruct (clean_cycle svc env) eqn:E.
      * right.
        destruct (IH 0%Z ltac:(unfold max_errors; lia) Hhalt)
          as [(fails & post & -> & Hall & Hlen)|(pre & fails & post & -> & Hlen & Hall)].
        -- exists [env], fails, post. repeat split; [|exact Hall].
           unfold max_errors in Hlen. lia.
        -- exists (env :: pre), fails, post. repeat split; assumption.
      * destruct (IH (ec + 1)%Z ltac:(lia) Hhalt)
          as [(fails & post & -> & Hall & Hlen)|(pre & fails & post & -> & Hlen & Hall)].
        -- left. exists (env :: fails), post. repeat split.
           ++ constructor; [exact E | exact Hall].
           ++ simpl List.length. rewrite Nat2Z.inj_succ. lia.
        -- right. exists (env :: pre), fails, post.
           repeat split; assumption.
    + left. exists [], (env :: rest). split; [reflexivity|].
      split; [constructor|]. unfold max_errors in *. cbn [List.length Z.of_nat]. lia.
Qed.

(** X7. The loop stops exactly on five failing passes in a row: run from
    count 0 against any script, it ends halted if and only if the script
    has five consecutive passes in each of which the fetch came back
    empty or the broadcast or the spreadsheet update raised. *)
Theorem halts_iff_five_failures_in_a_row svc script :
  snd (background_update svc script) = Halted <->
  failure_streak svc 5 script.
Proof.
  unfold background_update. split.
  - intros H.
    destruct (halted_has_streak svc script 0%Z
                ltac:(unfold max_errors; lia) H)
      as [(fails & post & -> & Hall & Hlen)|Hs]; [|exact Hs].
    exists [], fails, post. repeat split; [|exact Hall].
    unfold max_errors in Hlen. lia.
  - intros (pre & fails & post & -> & Hlen & Hall).
    apply halts_after_prefix; [lia|]. intros ec' Hec'.
    apply failures_halt; [exact Hall|].
    rewrite Hlen. unfold max_errors. lia.
Qed.

Lemma looping_counts_trailing_failures svc script ec n :
  snd (run_loop svc script ec) = Looping n ->
  (n < max_errors)%Z
  /\ ((Forall (failing svc) script
       /\ n = (ec + Z.of_nat (List.length script))%Z)
      \/ exists pre env fails,
           script = pre ++ env :: fails
           /\ clean_cycle svc env = true
           /\ Forall (failing svc) fails
           /\ n = Z.of_nat (List.length fails)).
Proof.
  revert ec. induction script as [|env rest IH]; intros ec H.
  - destruct (Z_lt_ge_dec ec max_errors) as [Hlt|Hge].
    + rewrite run_loop_done in H by exact Hlt. injection H as <-.
      split; [exact Hlt|]. left. split; [constructor | simpl; lia].
    + rewrite run_loop_status_halted in H by lia. discriminate H.
  - destruct (Z_lt_ge_dec ec max_errors) as [Hlt|Hge];
      [|rewrite run_loop_status_halted in H by lia; discriminate H].
    rewrite run_loop_status_step in H by exact Hlt.
    rewrite cycle_counter in H.
    destruct (clean_cycle svc env) eqn:E.
    + destruct (IH _ H) as [Hn [[Hall ->]|(pre & e & fails & -> & He & Hall & ->)]];
        (split; [exact Hn|]); right.
      * exists [], env, rest. repeat split; try assumption; lia.
      * exists (env :: pre), e, fails. repeat split; assumption.
    + destruct (IH _ H) as [Hn [[Hall ->]|(pre & e & fails & -> & He & Hall & ->)]];
        (split; [exact Hn|]).
      * left. split; [constructor; [exact E | exact Hall]|].
        simpl List.length. rewrite Nat2Z.inj_succ. lia.
      * right. exists (env :: pre), e, fails. repeat split; assumption.
Qed.

(** X8. While the loop runs, its failure count is the number of failing
    passes since the last clean one: when a run from count 0 ends still
    looping with count [n], then [n] is below 5 and the script ends with
    exactly [n] failing passes, preceded by a clean pass or by nothing. *)
Theorem count_is_trailing_failures svc script t n :
  background_update svc script = (t, Looping n) ->
  (0 <= n < 5)%Z
  /\ exists pre fails,
       script = pre ++ fails
       /\ Forall (failing svc) fails
       /\ Z.of_nat (List.length fails) = n
       /\ (pre = []
           \/ exists pre' env,
                pre = pre' ++ [env] /\ clean_cycle svc env = true).
Proof.
  unfold background_update. intros H.
  assert (Hs : snd (run_loop svc script 0%Z) = Looping n)
    by (rewrite H; reflexivity).
  destruct (looping_counts_trailing_failures _ _ _ _ Hs)
    as [Hn [[Hall ->]|(pre & env & fails & -> & He & Hall & ->)]].
  - unfold max_errors in Hn. split; [lia|].
    exists [], script. split; [reflexivity|]. split; [exact Hall|].
    split; [lia | left; reflexivity].
  - unfold max_errors in Hn. split; [lia|].
    exists (pre ++ [env]), fails.
    split; [rewrite <- app_assoc; reflexivity|].
    split; [exact Hall|]. split; [reflexivity|].
    right. exists pre, env. split; [reflexivity | exact He].
Qed.

Lemma count_is_trailing_failures_witness :
  (0 <= 2 < 5)%Z
  /\ exists pre fails,
       [fetch_failure_env; clean_env; persist_failure_env; fetch_failure_env]
       = pre ++ fails
       /\ Forall (failing true) fails
       /\ Z.of_nat (List.length fails) = 2%Z
       /\ (pre = []
           \/ exists pre' env,
                pre = pre' ++ [env] /\ clean_cycle true env = true).
Proof.
  apply (count_is_trailing_failures true
           [fetch_failure_env; clean_env; persist_failure_env;
            fetch_failure_env]
           (fst (background_update true
                   [fetch_failure_env; clean_env; persist_failure_env;
                    fetch_failure_env]))).
  vm_compute. reflexivity.
Defined.

Lemma cycle_is_pass svc env ec : pass_trace (fst (cycle svc env ec)).
Proof.
  destruct (fetch_returns (http env)) as [data Hf].
  destruct data as [|r data].
  - rewrite (cycle_empty_fetch _ _ _ Hf). simpl.
    exists [EvLog Warning "No crypto data fetched"], 60%Z.
    repeat split. left. reflexivity.
  - destruct (analyze_returns (clock env) (r :: data)) as [a Ha].
    destruct (cycle_with_batch svc env ec _ _ Hf ltac:(discriminate) Ha)
      as (n & rows & ->). cbv zeta.
    destruct (emit_result env).
    + exists [EvEmit "crypto_update" (r :: data) a;
              EvLog Error "Background update error"], 60%Z.
      repeat split. left. reflexivity.
    + destruct svc.
      * destruct (clear_result (sheets env)).
        -- exists [EvEmit "crypto_update" (r :: data) a;
                   EvSheetClear "Sheet1!A1:H51";
                   EvLog Error "Background update error"], 60%Z.
           repeat split. left. reflexivity.
        -- destruct (update_result (sheets env)).
           ++ exists [EvEmit "crypto_update" (r :: data) a;
                      EvSheetClear "Sheet1!A1:H51"; EvSheetUpdate n rows;
                      EvLog Error "Background update error"], 60%Z.
              repeat split. left. reflexivity.
           ++ exists [EvEmit "crypto_update" (r :: data) a;
                      EvSheetClear "Sheet1!A1:H51"; EvSheetUpdate n rows],
                     300%Z.
              repeat split. right. reflexivity.
      * exists [EvEmit "crypto_update" (r :: data) a], 300%Z.
        repeat split. right. reflexivity.
Qed.

Lemma count_fetches_app t1 t2 :
  count_fetches (t1 ++ t2) = count_fetches t1 + count_fetches t2.
Proof. unfold count_fetches. rewrite filter_app. apply length_app. Qed.

Lemma count_fetches_pass t : pass_trace t -> count_fetches t = 1.
Proof.
  intros (mid & s & -> & _ & Hmid).
  change (EvHttpGet :: mid ++ [EvSleep s])
    with ([EvHttpGet] ++ mid ++ [EvSleep s]).
  rewrite !count_fetches_app.
  assert (count_fetches mid = 0) as ->.
  { unfold count_fetches. induction mid as [|ev mid IH]; [reflexivity|].
    simpl in Hmid. apply andb_true_iff in Hmid. destruct Hmid as [Hev Hmid].
    simpl. destruct (is_fetch ev); [discriminate Hev|]. apply IH, Hmid. }
  reflexivity.
Qed.

Lemma run_loop_passes svc script ec :
  exists passes,
    Forall pass_trace passes
    /\ List.length passes <= List.length script
    /\ count_fetches (fst (run_loop svc script ec)) = List.length passes
    /\ match snd (run_loop svc script ec) with
       | Halted =>
           fst (run_loop svc script ec) = List.concat passes ++ [critical_stop]
       | Looping _ =>
           fst (run_loop svc script ec) = List.concat passes
           /\ List.length passes = List.length script
       end.
Proof.
  revert ec. induction script as [|env rest IH]; intros ec.
  - exists []. split; [constructor|]. split; [reflexivity|].
    destruct (Z_lt_ge_dec ec max_errors) as [Hlt|Hge].
    + rewrite run_loop_done by exact Hlt. repeat split.
    + rewrite run_loop_halted by lia. repeat split.
  - destruct (Z_lt_ge_dec ec max_errors) as [Hlt|Hge].
    + destruct (IH (snd (cycle svc env ec))) as (passes & Hall & Hlen & Hcnt & Hrun).
      exists (fst (cycle svc env ec) :: passes).
      split; [constructor; [apply cycle_is_pass | exact Hall]|].
      split; [simpl; lia|].
      rewrite run_loop_trace_step, run_loop_status_step by exact Hlt.
      split.
      * rewrite count_fetches_app, Hcnt.
        rewrite (count_fetches_pass _ (cycle_is_pass svc env ec)).
        reflexivity.
      * destruct (snd (run_loop svc rest (snd (cycle svc env ec)))).
        -- rewrite Hrun. simpl. rewrite app_assoc. reflexivity.
        -- destruct Hrun as [-> Hl]. simpl. rewrite Hl. split; reflexivity.
    + exists []. split; [constructor|]. split; [simpl; lia|].
      rewrite run_loop_halted by lia. repeat split.
Qed.

(** X9. A run is a sequence of passes, each opening with one request and
    closing with one sleep of 60 or 300 seconds, with no request and no
    sleep in between: the thread never sends two requests without
    sleeping in between, makes as many requests as it runs passes, and
    after halting adds only the critical log line. *)
Theorem requests_alternate_with_sleeps svc script :
  exists passes,
    Forall pass_trace passes
    /\ List.length passes <= List.length script
    /\ count_fetches (fst (background_update svc script)) = List.length passes
    /\ match snd (background_update svc script) with
       | Halted =>
           fst (background_update svc script) =
             List.concat passes ++ [critical_stop]
       | Looping _ =>
           fst (background_update svc script) = List.concat passes
           /\ List.length passes = List.length script
       end.
Proof. apply run_loop_passes. Qed.

(** ** The spreadsheet mirror *)

Lemma has_column_lookup df c :
  has_column df c =
  match lookup c (columns df) with Some _ => true | None => false end.
Proof.
  unfold has_column.
  destruct (mem_string c (map fst (columns df))) eqn:E.
  - destruct (lookup_present _ _ E) as [v ->]. reflexivity.
  - rewrite (lookup_absent _ _ E). reflexivity.
Qed.

Lemma add_missing_columns_gen l df :
  let df' := fold_left (fun d column => if has_column d column then d
                                        else setitem d column VNull) l df in
  nrows df' = nrows df
  /\ forall c,
       lookup c (columns df') =
       match lookup c (columns df) with
       | Some s => Some s
       | None => if mem_string c l then Some (repeat VNull (nrows df))
                 else None
       end.
Proof.
  cbv zeta. revert df. induction l as [|x l IH]; intros df; simpl.
  - split; [reflexivity|]. intros c. destruct (lookup c (columns df));
      reflexivity.
  - destruct (IH (if has_column df x then df else setitem df x VNull))
      as [Hn Hl].
    rewrite Hn. split; [destruct (has_column df x); reflexivity|].
    intros c. rewrite Hl. rewrite (has_column_lookup df x).
    destruct (lookup x (columns df)) as [sx|] eqn:Ex.
    + destruct (lookup c (columns df)) eqn:Ec; [reflexivity|].
      label_cases c x; [congruence | reflexivity].
    + rewrite lookup_setitem. simpl nrows.
      label_cases c x.
      * rewrite Ex. reflexivity.
      * destruct (lookup c (columns df)); reflexivity.
Qed.

Lemma lookup_frame_of_records c data :
  lookup c (columns (frame_of_records data)) =
  if existsb (has_key c) data then Some (map (cell c) data) else None.
Proof.
  unfold frame_of_records; simpl.
  rewrite lookup_labelled, mem_column_labels. reflexivity.
Qed.

Lemma cells_without_key c (data : batch) :
  existsb (has_key c) data = false ->
  map (cell c) data = repeat VNull (List.length data).
Proof.
  induction data as [|r data IH]; simpl; [reflexivity|].
  intros H. apply orb_false_iff in H. destruct H as [Hr Hd].
  rewrite (IH Hd). unfold cell. rewrite has_key_lookup in Hr.
  destruct (lookup c r); [discriminate Hr | reflexivity].
Qed.

(** The columns of the frame the sheet is written from. *)
Lemma sheet_column stamp data c :
  mem_string c columns_to_write = true ->
  lookup c (columns (setitem (add_missing_columns (frame_of_records data))
                             "timestamp" (VStr stamp))) =
  Some (if String.eqb c "timestamp"
        then repeat (VStr stamp) (List.length data)
        else map (cell c) data).
Proof.
  intros Hc. rewrite lookup_setitem.
  destruct (add_missing_columns_gen columns_to_write (frame_of_records data))
    as [Hn Hl].
  cbv zeta in Hn, Hl. fold (add_missing_columns (frame_of_records data)) in Hn, Hl.
  rewrite Hn. simpl nrows.
  destruct (String.eqb c "timestamp"); [reflexivity|].
  rewrite Hl, lookup_frame_of_records, Hc. simpl nrows.
  destruct (existsb (has_key c) data) eqn:E; [reflexivity|].
  rewrite (cells_without_key _ _ E). reflexivity.
Qed.

Lemma nth_repeat_lt {A : Type} (v d : A) i n :
  i < n -> nth i (repeat v n) d = v.
Proof.
  revert i. induction n as [|n IH]; intros i H; [lia|].
  destruct i as [|i]; simpl; [reflexivity|]. apply IH. lia.
Qed.

Lemma map_nth_seq {A B : Type} (f : A -> B) (l : list A) d :
  map (fun i => f (nth i l d)) (seq 0 (List.length l)) = map f l.
Proof.
  induction l as [|a l IH]; simpl; [reflexivity|].
  rewrite <- seq_shift, map_map. simpl. rewrite IH. reflexivity.
Qed.

Lemma sheet_rows_normal stamp data :
  nrows (setitem (add_missing_columns (frame_of_records data))
                 "timestamp" (VStr stamp)) = List.length data
  /\ sheet_rows (setitem (add_missing_columns (frame_of_records data))
                         "timestamp" (VStr stamp))
     = map (sheet_row stamp) data.
Proof.
  assert (Hn : nrows (setitem (add_missing_columns (frame_of_records data))
                              "timestamp" (VStr stamp)) = List.length data).
  { change (nrows (add_missing_columns (frame_of_records data))
            = List.length data).
    destruct (add_missing_columns_gen columns_to_write (frame_of_records data))
      as [Hn _]. exact Hn. }
  split; [exact Hn|].
  unfold sheet_rows. rewrite Hn.
  rewrite <- (map_nth_seq (sheet_row stamp) data []).
  apply map_ext_in. intros i Hi. apply in_seq in Hi.
  unfold row_values, sheet_row. apply map_ext_in. intros c Hc.
  rewrite sheet_column.
  - destruct (String.eqb c "timestamp").
    + apply nth_repeat_lt. lia.
    + change VNull with (cell c []). apply map_nth.
  - unfold mem_string. apply existsb_exists. exists c.
    split; [exact Hc | apply String.eqb_refl].
Qed.

Lemma update_sheet_exact api stamp data :
  update_sheet api stamp data =
  let clear := EvSheetClear "Sheet1!A1:H51" in
  let update := EvSheetUpdate (S (List.length data))
                  (sheet_header :: map (sheet_row stamp) data) in
  match clear_result api with
  | Some e => ([clear], Raise e)
  | None =>
      match update_result api with
      | Some e => ([clear; update], Raise e)
      | None => ([clear; update], Ok tt)
      end
  end.
Proof.
  unfold update_sheet, pd_DataFrame, bind, lift, call.
  destruct (sheet_rows_normal stamp data) as [_ Hrows].
  rewrite Hrows. simpl List.length. rewrite length_map. cbv zeta.
  destruct (clear_result api); [reflexivity|].
  destruct (update_result api); reflexivity.
Qed.



Lemma cycle_with_batch_exact svc env ec data analysis :
  fetch_crypto_data (http env) = Ok data ->
  data <> [] ->
  analyze_crypto_data (clock env) data = Ok analysis ->
  cycle svc env ec =
  let emit := EvEmit "crypto_update" data analysis in
  let clear := EvSheetClear "Sheet1!A1:H51" in
  let update := EvSheetUpdate (S (List.length data))
                  (sheet_header :: map (sheet_row (sheet_clock env)) data) in
  let failed := [EvLog Error "Background update error"; EvSleep 60] in
  match emit_result env with
  | Some _ => ([EvHttpGet; emit] ++ failed, (ec + 1)%Z)
  | None =>
      if svc then
        match clear_result (sheets env), update_result (sheets env) with
        | Some _, _ => ([EvHttpGet; emit] ++ [clear] ++ failed, (ec + 1)%Z)
        | None, Some _ =>
            ([EvHttpGet; emit] ++ [clear; update] ++ failed, (ec + 1)%Z)
        | None, None =>
            ([EvHttpGet; emit] ++ [clear; update] ++ [EvSleep 300], 0%Z)
        end
      else ([EvHttpGet; emit] ++ [EvSleep 300], 0%Z)
  end.
Proof.
  intros Hf Hne Ha.
  pose proof (update_sheet_exact (sheets env) (sheet_clock env) data) as Hu.
  cbv zeta in Hu.
  unfold cycle, cycle_body, bind, lift, tell, ret, call.
  rewrite Hf. destruct data as [|r data]; [congruence|].
  rewrite Ha. destruct (emit_result env); [reflexivity|].
  destruct svc; [|reflexivity].
  rewrite Hu.
  destruct (clear_result (sheets env)); [reflexivity|].
  destruct (update_result (sheets env)); reflexivity.
Qed.

Lemma run_loop_events svc script ec ev :
  In ev (fst (run_loop svc script ec)) ->
  ev = critical_stop
  \/ exists env ec', In env script /\ In ev (fst (cycle svc env ec')).
Proof.
  revert ec. induction script as [|env rest IH]; intros ec H.
  - destruct (Z_lt_ge_dec ec max_errors) as [Hlt|Hge].
    + rewrite run_loop_done in H by exact Hlt. destruct H.
    + rewrite run_loop_halted in H by lia. destruct H as [<-|[]].
      left. reflexivity.
  - destruct (Z_lt_ge_dec ec max_errors) as [Hlt|Hge].
    + rewrite run_loop_trace_step in H by exact Hlt.
      apply in_app_or in H. destruct H as [H|H].
      * right. exists env, ec. split; [left; reflexivity | exact H].
      * destruct (IH _ H) as [->|(env' & ec' & Hin & Hev)];
          [left; reflexivity|].
        right. exists env', ec'. split; [right; exact Hin | exact Hev].
    + rewrite run_loop_halted in H by lia. destruct H as [<-|[]].
      left. reflexivity.
Qed.

Lemma sheet_update_in_cycle svc env ec n rows :
  In (EvSheetUpdate n rows) (fst (cycle svc env ec)) ->
  svc = true
  /\ exists data analysis tail,
       fetch_crypto_data (http env) = Ok data
       /\ data <> []
       /\ analyze_crypto_data (clock env) data = Ok analysis
       /\ n = S (List.length data)
       /\ rows = sheet_header :: map (sheet_row (sheet_clock env)) data
       /\ fst (cycle svc env ec) =
            [EvHttpGet; EvEmit "crypto_update" data analysis;
             EvSheetClear "Sheet1!A1:H51"; EvSheetUpdate n rows] ++ tail.
Proof.
  destruct (fetch_returns (http env)) as [data Hf].
  destruct data as [|r data].
  - rewrite (cycle_empty_fetch _ _ _ Hf). simpl.
    intros [H|[H|[H|[]]]]; discriminate H.
  - destruct (analyze_returns (clock env) (r :: data)) as [a Ha].
    rewrite (cycle_with_batch_exact svc env ec _ _ Hf ltac:(discriminate) Ha).
    cbv zeta.
    destruct (emit_result env).
    { simpl. intros [H|[H|[H|[H|[]]]]]; discriminate H. }
    destruct svc.
    2:{ simpl. intros [H|[H|[H|[]]]]; discriminate H. }
    destruct (clear_result (sheets env)).
    { simpl. intros [H|[H|[H|[H|[H|[]]]]]]; discriminate H. }
    destruct (update_result (sheets env)); simpl;
      intros [H|[H|[H|[H|H]]]]; try discriminate H.
    + injection H as <- <-. split; [reflexivity|].
      exists (r :: data), a, [EvLog Error "Background update error"; EvSleep 60].
      repeat split; try assumption; discriminate.
    + destruct H as [H|[H|[]]]; discriminate H.
    + injection H as <- <-. split; [reflexivity|].
      exists (r :: data), a, [EvSleep 300].
      repeat split; try assumption; discriminate.
    + destruct H as [H|[]]; discriminate H.
Qed.

(** X11. In the loop the sheet is written only after the broadcast of the
    same batch: every spreadsheet update of a run belongs to a pass of
    the script that fetched a non-empty batch, broadcast it with its
    analysis, cleared the sheet and then wrote that batch, header plus at
    least one row; and the service was constructed. *)
Theorem sheet_update_follows_broadcast svc script n rows :
  In (EvSheetUpdate n rows) (fst (background_update svc script)) ->
  svc = true
  /\ 2 <= n
  /\ exists env ec data analysis tail,
       In env script
       /\ fetch_crypto_data (http env) = Ok data
       /\ n = S (List.length data)
       /\ rows = sheet_header :: map (sheet_row (sheet_clock env)) data
       /\ fst (cycle svc env ec) =
            [EvHttpGet; EvEmit "crypto_update" data analysis;
             EvSheetClear "Sheet1!A1:H51"; EvSheetUpdate n rows] ++ tail.
Proof.
  unfold background_update. intros H.
  apply run_loop_events in H.
  destruct H as [H|(env & ec & Hin & Hev)]; [discriminate H|].
  destruct (sheet_update_in_cycle _ _ _ _ _ Hev)
    as (Hsvc & data & a & tail & Hf & Hne & Ha & Hn & Hrows & Ht).
  split; [exact Hsvc|]. split.
  - rewrite Hn. destruct data; [congruence | simpl; lia].
  - exists env, ec, data, a, tail. repeat split; assumption.
Qed.

Lemma sheet_update_follows_broadcast_witness :
  true = true
  /\ 2 <= 2
  /\ exists env ec data analysis tail,
       In env [fetch_failure_env; clean_env]
       /\ fetch_crypto_data (http env) = Ok data
       /\ 2 = S (List.length data)
       /\ [sheet_header; sheet_row "2024-05-01 10:00:00" bitcoin]
          = sheet_header :: map (sheet_row (sheet_clock env)) data
       /\ fst (cycle true env ec) =
            [EvHttpGet; EvEmit "crypto_update" data analysis;
             EvSheetClear "Sheet1!A1:H51";
             EvSheetUpdate 2
               [sheet_header; sheet_row "2024-05-01 10:00:00" bitcoin]]
            ++ tail.
Proof.
  apply (sheet_update_follows_broadcast true [fetch_failure_env; clean_env] 2
           [sheet_header; sheet_row "2024-05-01 10:00:00" bitcoin]).
  vm_compute. do 6 right. left. reflexivity.
Defined.




(** X13. The scheduled job of clock.py does not look at what it fetched:
    after a failed exchange it still clears the sheet and writes the
    header alone, so the rows of the previous write are gone; the loop of
    app.py, on the same exchange, leaves the sheet alone. *)
Theorem clock_job_wipes_sheet_on_failed_fetch creds o api stamp svc env ec :
  failed_exchange o = true ->
  http env = o ->
  update_sheets (Ok creds) o api stamp =
    match clear_result api with
    | Some e => ([EvHttpGet; EvSheetClear "Sheet1!A1:H51"], Raise e)
    | None =>
        ([EvHttpGet; EvSheetClear "Sheet1!A1:H51";
          EvSheetUpdate 1 [sheet_header]],
         match update_result api with
         | Some e => Raise e
         | None => Ok tt
         end)
    end
  /\ existsb is_sheet_call (fst (cycle svc env ec)) = false.
Proof.
  intros Hfail Henv. split.
  - unfold update_sheets, bind, lift, tell.
    rewrite (fetch_after_failed_exchange o Hfail).
    rewrite update_sheet_exact. cbv zeta. simpl.
    destruct (clear_result api); [reflexivity|].
    destruct (update_result api); reflexivity.
  - rewrite (cycle_empty_fetch svc env ec); [reflexivity|].
    rewrite Henv. apply fetch_after_failed_exchange, Hfail.
Qed.

Lemma clock_job_wipes_sheet_on_failed_fetch_witness :
  update_sheets
    (Ok {| valid := true; expired := false; refresh_token := None;
           to_json := "{}" |})
    (http fetch_failure_env) (sheets fetch_failure_env) "2024-05-01 10:00:00" =
    match clear_result (sheets fetch_failure_env) with
    | Some e => ([EvHttpGet; EvSheetClear "Sheet1!A1:H51"], Raise e)
    | None =>
        ([EvHttpGet; EvSheetClear "Sheet1!A1:H51";
          EvSheetUpdate 1 [sheet_header]],
         match update_result (sheets fetch_failure_env) with
         | Some e => Raise e
         | None => Ok tt
         end)
    end
  /\ existsb is_sheet_call (fst (cycle true fetch_failure_env 0)) = false.
Proof.
  apply (clock_job_wipes_sheet_on_failed_fetch
           {| valid := true; expired := false; refresh_token := None;
              to_json := "{}" |}
           (http fetch_failure_env) (sheets fetch_failure_env)
           "2024-05-01 10:00:00" true fetch_failure_env 0);
    reflexivity.
Defined.

(** ** The credentials *)

(** X14. The credentials returned are either the stored ones, valid and
    untouched, with nothing refreshed, no flow run and nothing written;
    or they come from exactly one refresh or one local-server flow and
    have just been saved to the token file.  The flow is not run for
    stored credentials that are expired and have a refresh token. *)
Theorem credentials_are_stored_or_saved env t c :
  get_credentials env = (t, Ok c) ->
  (t = [] /\ token_file env = Some (Ok c) /\ valid c = true)
  \/ (exists c0,
        token_file env = Some (Ok c0) /\ valid c0 = false
        /\ expired c0 = true /\ has_refresh_token c0 = true
        /\ refresh_result env c0 = Ok c
        /\ t = [AuthRefresh; AuthWriteToken (to_json c)])
  \/ (flow_result env = Ok c
      /\ t = [AuthFlow 8080; AuthWriteToken (to_json c)]
      /\ (token_file env = None
          \/ exists c0,
               token_file env = Some (Ok c0) /\ valid c0 = false
               /\ expired c0 && has_refresh_token c0 = false)).
Proof.
  unfold get_credentials. intros H.
  destruct (token_file env) as [[c0|e]|] eqn:Et.
  - destruct (valid c0) eqn:Ev.
    + injection H as <- <-. left. repeat split. exact Ev.
    + destruct (expired c0 && has_refresh_token c0) eqn:Er.
      * apply andb_true_iff in Er. destruct Er as [Ee Eh].
        destruct (refresh_result env c0) as [c1|e] eqn:Rr;
          [|discriminate H].
        injection H as <- <-. right. left. exists c0.
        repeat split; assumption.
      * destruct (flow_result env) as [c1|e] eqn:Fr; [|discriminate H].
        injection H as <- <-. right. right.
        repeat split. right. exists c0. repeat split; assumption.
  - discriminate H.
  - destruct (flow_result env) as [c1|e] eqn:Fr; [|discriminate H].
    injection H as <- <-. right. right. repeat split. left. reflexivity.
Qed.

Lemma credentials_are_stored_or_saved_witness :
  let env := {| token_file :=
                  Some (Ok {| valid := false; expired := true;
                              refresh_token := Some "1//0g";
                              to_json := "{old}" |});
                refresh_result :=
                  fun c => Ok {| valid := true; expired := false;
                                 refresh_token := refresh_token c;
                                 to_json := "{new}" |};
                flow_result := Raise (OtherException "FileNotFoundError") |} in
  let c := {| valid := true; expired := false;
              refresh_token := Some "1//0g"; to_json := "{new}" |} in
  let t := [AuthRefresh; AuthWriteToken "{new}"] in
  (t = [] /\ token_file env = Some (Ok c) /\ valid c = true)
  \/ (exists c0,
        token_file env = Some (Ok c0) /\ valid c0 = false
        /\ expired c0 = true /\ has_refresh_token c0 = true
        /\ refresh_result env c0 = Ok c
        /\ t = [AuthRefresh; AuthWriteToken (to_json c)])
  \/ (flow_result env = Ok c
      /\ t = [AuthFlow 8080; AuthWriteToken (to_json c)]
      /\ (token_file env = None
          \/ exists c0,
               token_file env = Some (Ok c0) /\ valid c0 = false
               /\ expired c0 && has_refresh_token c0 = false)).
Proof.
  apply (credentials_are_stored_or_saved
           {| token_file :=
                Some (Ok {| valid := false; expired := true;
                            refresh_token := Some "1//0g";
                            to_json := "{old}" |});
              refresh_result :=
                fun c => Ok {| valid := true; expired := false;
                               refresh_token := refresh_token c;
                               to_json := "{new}" |};
              flow_result := Raise (OtherException "FileNotFoundError") |}).
  reflexivity.
Defined.


